(** * code-lab: the execution dispatcher of [server.js]

    A shallow embedding of [executeCode] and [cleanup] (server.js, lines
    63-124) together with the [LANGUAGES] table they read (lines 18-59).

    The two functions talk to three collaborators that are not part of the
    repository: the file system ([fs]), the process runner
    ([child_process.exec]) and the console.  They are modelled as follows.

    - The file system is a finite map from absolute paths to nodes; a node
      is a regular file with its text, or a directory.  [fs.existsSync],
      [fs.unlinkSync] and [fs.writeFileSync] are the three calls used.
    - [exec] is an oracle handed to [executeCode]: given the command line
      and the files present when the command starts, it yields what node
      passes to the completion callback ([err], [stdout], [stderr]) and the
      files present when that callback runs.  The submitted program is not
      sandboxed, so those files are arbitrary.
    - Every call on a collaborator is recorded in a trace, in program
      order, so that statements such as "no process is started" or "cleanup
      runs before the answer is delivered" can be stated.

    [exec] is asynchronous in node; the model runs the completion callback
    in sequence after the call, which is the order in which one request
    observes its own effects. *)

From Stdlib Require Import Ascii String NArith.
From Stdlib.Strings Require Import Byte.
From stdpp Require Import base option list strings gmap.


(** ** Strings *)

(** The double quote, written by code so that no literal has to escape it. *)
Definition dquote : string := String (ascii_of_nat 34) "".

(** ["${s}"] inside a template literal of the source. *)
Definition quoted (s : string) : string := dquote +:+ s +:+ dquote.

(** [Buffer.prototype.toString('hex')]: two lower-case digits per byte. *)
Definition hex_digit (n : N) : ascii :=
  match String.get (N.to_nat n) "0123456789abcdef" with
  | Some c => c
  | None => "0"%char
  end.

Definition hex_of_byte (b : byte) : string :=
  let n := Byte.to_N b in
  String (hex_digit (n / 16)) (String (hex_digit (n mod 16)) "").

Fixpoint toString_hex (bs : list byte) : string :=
  match bs with
  | [] => ""
  | b :: r => hex_of_byte b +:+ toString_hex r
  end.

(** ** Paths

    [path.join] and [path.dirname] of node, on the arguments the dispatcher
    gives them: a normalised directory and a name, resp. the result of such
    a join.  Segments [.] and [..], repeated separators and a trailing
    separator are not modelled; none of them occurs in a path built by
    [executeCode]. *)

Section Paths.

(** [process.platform === 'win32'] *)
Variable win32 : bool.

Definition path_sep : string := if win32 then "\" else "/".

Definition is_sep (c : ascii) : bool :=
  if Ascii.eqb c "/" then true
  else if win32 then Ascii.eqb c "\" else false.

Definition path_join (dir name : string) : string :=
  dir +:+ path_sep +:+ name.

(** The part of [p] before its last separator, when it has one. *)
Fixpoint split_last (p : string) : option string :=
  match p with
  | EmptyString => None
  | String c r =>
      match split_last r with
      | Some d => Some (String c d)
      | None => if is_sep c then Some EmptyString else None
      end
  end.

Definition path_dirname (p : string) : string :=
  match split_last p with
  | None => "."
  | Some EmptyString => path_sep
  | Some d => d
  end.

End Paths.

(** A name that contains neither separator, on either platform. *)
Fixpoint sep_free (s : string) : bool :=
  match s with
  | EmptyString => true
  | String c r =>
      negb (Ascii.eqb c "/") && negb (Ascii.eqb c "\") && sep_free r
  end.

(** ** The recipe table

    The object literal [LANGUAGES] (server.js, lines 18-59).  A recipe has
    an extension, a command builder taking the source path, the working
    directory and the binary name, and for one language a fixed file name. *)

Record recipe := Recipe {
  ext : string;
  cmd : string → string → string → string;
  filename : option string
}.

Section Registry.

Variable win32 : bool.

Definition exe_suffix : string := if win32 then ".exe" else "".

Definition javascript : recipe :=
  Recipe ".js" (λ f _ _, "node " +:+ quoted f) None.

Definition python : recipe :=
  Recipe ".py"
    (λ f _ _, if win32 then "python " +:+ quoted f
              else "python3 " +:+ quoted f)
    None.

Definition java : recipe :=
  Recipe ".java"
    (λ f dir _, "javac " +:+ quoted f +:+ " && java -cp " +:+ quoted dir
                +:+ " Main")
    (Some "Main.java").

Definition cpp : recipe :=
  Recipe ".cpp"
    (λ f dir name,
       let out := path_join win32 dir name in
       "g++ " +:+ quoted f +:+ " -o " +:+ quoted out +:+ " && "
       +:+ quoted (out +:+ exe_suffix))
    None.

Definition csharp : recipe :=
  Recipe ".cs"
    (λ f dir name,
       let out := path_join win32 dir (name +:+ ".exe") in
       "mcs " +:+ quoted f +:+ " -out:" +:+ quoted out +:+ " && mono "
       +:+ quoted out)
    None.

Definition go : recipe :=
  Recipe ".go" (λ f _ _, "go run " +:+ quoted f) None.

Definition rust : recipe :=
  Recipe ".rs"
    (λ f dir name,
       let out := path_join win32 dir name in
       "rustc " +:+ quoted f +:+ " -o " +:+ quoted out +:+ " && "
       +:+ quoted (out +:+ exe_suffix))
    None.

Definition php : recipe :=
  Recipe ".php" (λ f _ _, "php " +:+ quoted f) None.

(** The own properties of [LANGUAGES], in source order. *)
Definition LANGUAGES : list (string * recipe) :=
  [ ("javascript", javascript); ("python", python); ("java", java);
    ("cpp", cpp); ("csharp", csharp); ("go", go); ("rust", rust);
    ("php", php) ].

Fixpoint own_property (tbl : list (string * recipe)) (k : string)
  : option recipe :=
  match tbl with
  | [] => None
  | (k', r) :: rest => if String.eqb k k' then Some r else own_property rest k
  end.

(** [LANGUAGES] is an object literal, so its prototype is
    [Object.prototype]: a key that is not an own property is looked up
    there.  These are the property names [Object.prototype] has in node;
    each is bound to a function, [__proto__] to the prototype object. *)
Definition Object_prototype_keys : list string :=
  [ "constructor"; "__defineGetter__"; "__defineSetter__";
    "hasOwnProperty"; "__lookupGetter__"; "__lookupSetter__";
    "isPrototypeOf"; "propertyIsEnumerable"; "toString"; "valueOf";
    "__proto__"; "toLocaleString" ].

(** What the expression [LANGUAGES[lang]] evaluates to. *)
Inductive jsvalue :=
| VRecipe (r : recipe)
| VBuiltin (key : string)
| VUndefined.

Definition LANGUAGES_get (lang : string) : jsvalue :=
  match own_property LANGUAGES lang with
  | Some r => VRecipe r
  | None =>
      if existsb (String.eqb lang) Object_prototype_keys
      then VBuiltin lang
      else VUndefined
  end.

(** [!config] is false exactly for [undefined]; objects and functions
    are truthy. *)
Definition truthy (v : jsvalue) : bool :=
  match v with
  | VRecipe _ | VBuiltin _ => true
  | VUndefined => false
  end.

(** [config.filename], [config.ext], [config.cmd]: a member of
    [Object.prototype] has none of the three properties. *)
Definition get_filename (v : jsvalue) : option string :=
  match v with VRecipe r => filename r | _ => None end.

Definition get_ext (v : jsvalue) : option string :=
  match v with VRecipe r => Some (ext r) | _ => None end.

Definition get_cmd (v : jsvalue)
  : option (string → string → string → string) :=
  match v with VRecipe r => Some (cmd r) | _ => None end.

End Registry.

(** [${x}] in a template literal, for [x] a string or [undefined]. *)
Definition template (x : option string) : string :=
  match x with Some s => s | None => "undefined" end.

(** [a || b] for [a] a string or [undefined]: the empty string is falsy. *)
Definition js_or (a : option string) (b : string) : string :=
  match a with
  | Some EmptyString | None => b
  | Some s => s
  end.

(** ** The file system, the result object and the trace *)

Inductive node :=
| File (data : string)
| Directory.

(** The error codes of the three failures modelled: a missing path, a
    parent that is not a directory, and a directory where a file is
    expected. *)
Inductive errno := ENOENT | ENOTDIR | EISDIR.

Inductive exn :=
| FsError (code : errno) (path : string)
| TypeError (msg : string).

(** The object handed to [callback]; an absent property is [None]. *)
Record response := Response {
  success : option bool;
  output : option string;
  error : option string;
  stderr : option string
}.

(** The [err] argument of the [exec] callback, with the two properties the
    dispatcher reads.  Node sets [killed] on the error it builds when it has
    terminated the child itself, which under the options of line 84 is the
    timeout; on any other error the property is absent and reads as
    [false]. *)
Record exec_error := ExecError {
  killed : bool;
  message : string
}.

(** What [exec] delivers for one command. *)
Record child_result := ChildResult {
  child_err : option exec_error;
  child_stdout : string;
  child_stderr : string;
  child_files : gmap string node
}.

(** How one process ended, as node's [exec] sees it: the exit code
    ([None] when a signal ended the process), the signal that ended it,
    whether the timer of the [timeout] option fired and node sent the kill
    signal, and the stream, if any, whose captured text passed [maxBuffer]
    (1 MiB unless an option says otherwise, and line 84 gives none). *)
Record ending := Ending {
  exit_code : option N;
  signal : option string;
  timer_fired : bool;
  over_buffer : option string
}.

Definition line_feed : string := String (ascii_of_nat 10) "".

(** The [err] argument [exec] builds from an ending.  A stream that
    passed [maxBuffer] makes the error at once, and that error has no
    [killed] property; otherwise exit code 0 without a signal gives
    [null], and anything else the error [Command failed: ...], whose
    [killed] says whether node sent the kill signal. *)
Definition exec_err (command stderr_ : string) (en : ending)
  : option exec_error :=
  match over_buffer en with
  | Some stream => Some (ExecError false (stream +:+ " maxBuffer length exceeded"))
  | None =>
      match exit_code en, signal en with
      | Some 0%N, None => None
      | _, _ =>
          Some (ExecError (timer_fired en)
                  ("Command failed: " +:+ command +:+ line_feed +:+ stderr_))
      end
  end.

(** One event per call on a collaborator, recorded when the call is made,
    whether or not it succeeds; [EvExit] is [exec] invoking its callback
    and [EvCallback] the dispatcher invoking the caller's.  [EvReadFile]
    is [fs.readFile], which only the HTTP layer calls. *)
Inductive event :=
| EvWriteFile (path data : string)
| EvExists (path : string)
| EvUnlink (path : string)
| EvExec (command : string) (timeout : N)
| EvExit (r : child_result)
| EvConsoleLog (line : string)
| EvConsoleError (label : string) (e : exn)
| EvCallback (r : response)
| EvReadFile (path : string).

Record world := World {
  files : gmap string node;
  trace : list event
}.

(** ** Computations: state, trace and exceptions *)

Inductive completion (A : Type) :=
| Normal (a : A)
| Throw (e : exn).
Arguments Normal {A} a.
Arguments Throw {A} e.

Definition M (A : Type) : Type := world → completion A * world.

#[export] Instance M_ret : MRet M := λ A a w, (Normal a, w).

#[export] Instance M_bind : MBind M := λ A B f m w,
  match m w with
  | (Normal a, w') => f a w'
  | (Throw e, w') => (Throw e, w')
  end.

Definition throw {A} (e : exn) : M A := λ w, (Throw e, w).

(** [try { body } catch (e) { handler }] *)
Definition try_catch {A} (body : M A) (handler : exn → M A) : M A := λ w,
  match body w with
  | (Normal a, w') => (Normal a, w')
  | (Throw e, w') => handler e w'
  end.

Definition emit (e : event) : M unit := λ w,
  (Normal (), World (files w) (trace w ++ [e])).

Definition get_files : M (gmap string node) := λ w, (Normal (files w), w).

Definition put_files (fs : gmap string node) : M unit := λ w,
  (Normal (), World fs (trace w)).

Definition when (b : bool) (m : M unit) : M unit :=
  if b then m else mret ().

Definition console_log (line : string) : M unit := emit (EvConsoleLog line).

Definition console_error (label : string) (e : exn) : M unit :=
  emit (EvConsoleError label e).

Definition callback (r : response) : M unit := emit (EvCallback r).

(** ** The dispatcher *)

Section Dispatcher.

(** [process.platform === 'win32'] *)
Variable win32 : bool.
(** [__dirname], the directory of server.js. *)
Variable dirname_ : string.
(** [crypto.randomBytes] *)
Variable randomBytes : nat → list byte.
(** [new Date().toISOString()] *)
Variable now : string.
(** [child_process.exec]: the command and the files at its start give
    the callback arguments and the files at its end. *)
Variable child : string → gmap string node → child_result.

Definition TEMP_DIR : string := path_join win32 dirname_ "temp".
Definition TIMEOUT_MS : N := 10000.

(** [fs.existsSync]: true for a file and for a directory. *)
Definition existsSync (p : string) : M bool :=
  emit (EvExists p);;
  fs ← get_files;
  mret (match fs !! p with Some _ => true | None => false end).

(** [fs.unlinkSync]: removes a file; throws on a directory and on a
    missing path. *)
Definition unlinkSync (p : string) : M unit :=
  emit (EvUnlink p);;
  fs ← get_files;
  match fs !! p with
  | Some (File _) => put_files (delete p fs)
  | Some Directory => throw (FsError EISDIR p)
  | None => throw (FsError ENOENT p)
  end.

(** [fs.writeFileSync]: creates or replaces a file; throws when the
    parent is not a directory and when the path is one. *)
Definition writeFileSync (p data : string) : M unit :=
  emit (EvWriteFile p data);;
  fs ← get_files;
  match fs !! path_dirname win32 p with
  | None => throw (FsError ENOENT p)
  | Some (File _) => throw (FsError ENOTDIR p)
  | Some Directory =>
      match fs !! p with
      | Some Directory => throw (FsError EISDIR p)
      | _ => put_files (<[p := File data]> fs)
      end
  end.

(** [exec(command, { timeout }, (err, stdout, stderr) => ...)] *)
Definition exec (command : string) (timeout : N)
  : M (option exec_error * string * string) :=
  emit (EvExec command timeout);;
  fs ← get_files;
  let r := child command fs in
  put_files (child_files r);;
  emit (EvExit r);;
  mret (child_err r, child_stdout r, child_stderr r).

(** [config.cmd(f, dir, name)]: calling [undefined] is a [TypeError]. *)
Definition call_cmd (config : jsvalue) (f dir name : string) : M string :=
  match get_cmd config with
  | Some c => mret (c f dir name)
  | None => throw (TypeError "config.cmd is not a function")
  end.

(** server.js, lines 105-124. *)
Definition cleanup (filePath runId : string) (ext : option string)
  : M unit :=
  try_catch
    (b ← existsSync filePath;
     when b (unlinkSync filePath);;
     let dir := path_dirname win32 filePath in
     let binPath := path_join win32 dir ("bin_" +:+ runId) in
     b ← existsSync binPath;
     when b (unlinkSync binPath);;
     b ← existsSync (binPath +:+ ".exe");
     when b (unlinkSync (binPath +:+ ".exe"));;
     let classPath := path_join win32 dir "Main.class" in
     b ← existsSync classPath;
     when b (unlinkSync classPath))
    (λ e, console_error "Cleanup Error:" e).

Definition unsupported_response (lang : string) : response :=
  Response None None (Some ("Language '" +:+ lang +:+ "' not supported."))
    None.

Definition write_failed_response : response :=
  Response None None (Some "Server failed to write file.") None.

Definition timeout_response : response :=
  Response None None (Some "Execution Timed Out (Max 10s)")
    (Some "Process killed.").

Definition failure_response (stderr_ : string) (e : exec_error)
  : response :=
  Response (Some false) None (Some "Execution Failed")
    (Some (js_or (Some stderr_) (message e))).

Definition success_response (stdout_ stderr_ : string) : response :=
  Response (Some true) (Some stdout_) None (Some stderr_).

(** The result object chosen in lines 88-101 for one process result. *)
Definition answer (x : child_result) : response :=
  match child_err x with
  | Some e =>
      if killed e then timeout_response
      else failure_response (child_stderr x) e
  | None => success_response (child_stdout x) (child_stderr x)
  end.

(** The [exec] callback, server.js lines 84-102. *)
Definition on_exit (filePath runId : string) (config : jsvalue)
    (r : option exec_error * string * string) : M unit :=
  let '(err, stdout_, stderr_) := r in
  cleanup filePath runId (get_ext config);;
  match err with
  | Some e =>
      if killed e then callback timeout_response
      else callback (failure_response stderr_ e)
  | None => callback (success_response stdout_ stderr_)
  end.

(** [config.filename || `s_${runId}${config.ext}`] *)
Definition fileName_of (config : jsvalue) (runId : string) : string :=
  js_or (get_filename config)
        ("s_" +:+ runId +:+ template (get_ext config)).

(** server.js, lines 63-103. *)
Definition executeCode (lang code : string) : M unit :=
  let config := LANGUAGES_get win32 lang in
  if negb (truthy config) then callback (unsupported_response lang)
  else
    let runId := toString_hex (randomBytes 8) in
    let fileName := fileName_of config runId in
    let filePath := path_join win32 TEMP_DIR fileName in
    written ← try_catch (writeFileSync filePath code;; mret true)
                        (λ _, mret false);
    if negb written then callback write_failed_response
    else
      command ← call_cmd config filePath TEMP_DIR ("bin_" +:+ runId);
      console_log ("[" +:+ now +:+ "] EXEC " +:+ lang +:+ ": " +:+ runId);;
      r ← exec command TIMEOUT_MS;
      on_exit filePath runId config r.

(** *** The names of one run

    The run identity and the paths [executeCode] and [cleanup] derive
    from it, as functions of the language identifier. *)

Definition runId : string := toString_hex (randomBytes 8).

Definition sourcePath (lang : string) : string :=
  path_join win32 TEMP_DIR (fileName_of (LANGUAGES_get win32 lang) runId).

Definition binPath : string := path_join win32 TEMP_DIR ("bin_" +:+ runId).

Definition classPath : string := path_join win32 TEMP_DIR "Main.class".

(** The four paths [cleanup] goes through, in its order. *)
Definition artifacts (lang : string) : list string :=
  [ sourcePath lang; binPath; binPath +:+ ".exe"; classPath ].

End Dispatcher.

(** ** What a sequence of guarded removals does

    [if (fs.existsSync(p)) fs.unlinkSync(p)] for each path in turn, inside
    one [try]: the files left, and the calls made, when the first removal
    that throws ends the sequence. *)

Fixpoint sweep (targets : list string) (fs : gmap string node)
  : gmap string node :=
  match targets with
  | [] => fs
  | p :: rest =>
      match fs !! p with
      | Some (File _) => sweep rest (delete p fs)
      | Some Directory => fs
      | None => sweep rest fs
      end
  end.

Fixpoint sweep_trace (targets : list string) (fs : gmap string node)
  : list event :=
  match targets with
  | [] => []
  | p :: rest =>
      EvExists p ::
      match fs !! p with
      | Some (File _) => EvUnlink p :: sweep_trace rest (delete p fs)
      | Some Directory =>
          [ EvUnlink p; EvConsoleError "Cleanup Error:" (FsError EISDIR p) ]
      | None => sweep_trace rest fs
      end
  end.

(** ** Reading a trace *)

(** The results delivered to the caller, in order. *)
Fixpoint delivered (t : list event) : list response :=
  match t with
  | [] => []
  | EvCallback r :: t' => r :: delivered t'
  | _ :: t' => delivered t'
  end.

(** What [exec] handed to its callback, in order. *)
Fixpoint exits (t : list event) : list child_result :=
  match t with
  | [] => []
  | EvExit r :: t' => r :: exits t'
  | _ :: t' => exits t'
  end.

(** The paths on which a file system error was logged, in order. *)
Fixpoint faults (t : list event) : list string :=
  match t with
  | [] => []
  | EvConsoleError _ (FsError _ p) :: t' => p :: faults t'
  | _ :: t' => faults t'
  end.

Definition is_fs_event (e : event) : bool :=
  match e with
  | EvWriteFile _ _ | EvExists _ | EvUnlink _ | EvReadFile _ => true
  | _ => false
  end.

Definition is_exec_event (e : event) : bool :=
  match e with EvExec _ _ => true | _ => false end.

(** Some call was made on the file system. *)
Definition touched (t : list event) : bool := existsb is_fs_event t.

(** A process was started. *)
Definition launched (t : list event) : bool := existsb is_exec_event t.

(** [fs.existsSync(p)] was called. *)
Definition probed (p : string) (t : list event) : bool :=
  existsb (λ e, match e with EvExists q => String.eqb p q | _ => false end) t.

(** Whether an event is the [fs.readFile] of the static branch. *)
Definition is_read_event (e : event) : bool :=
  match e with EvReadFile _ => true | _ => false end.

(** Whether a trace holds an event of the dispatcher: any event other than
    the read of the static branch (a write, a probe, a removal, a line on
    the console, a process or a call of the callback). *)
Definition dispatched (t : list event) : bool :=
  existsb (λ e, negb (is_read_event e)) t.

(** ** The result kinds of the specification

    The four kinds of the data model, and the reading of a result object as
    one of them: [success: true] is a success, [success: false] a failure;
    without a [success] property, an object with a [stderr] property is the
    timeout report and one with only [error] a configuration error. *)

Inductive ExecutionResult :=
| Success (stdout_ stderr_ : string)
| RuntimeOrCompileFailure (diagnostic : string)
| Timeout
| ConfigurationError (msg : string).

Definition kind_of (r : response) : option ExecutionResult :=
  match success r, output r, error r, stderr r with
  | Some true, Some o, None, Some e => Some (Success o e)
  | Some false, None, Some _, Some d => Some (RuntimeOrCompileFailure d)
  | None, None, Some _, Some _ => Some Timeout
  | None, None, Some m, None => Some (ConfigurationError m)
  | _, _, _, _ => None
  end.

(** The start of a run: nothing traced yet. *)
Definition start (fs : gmap string node) : world := World fs [].

(** ** Sample runs

    A POSIX host with server.js in [/app], a fixed run identity, and a few
    processes; used to evaluate the dispatcher on concrete requests. *)

Definition sample_bytes (n : nat) : list byte :=
  take n [x01; xab; xff; x00; x10; x7f; x80; x0a].

Definition sample_fs : gmap string node := {[ "/app/temp" := Directory ]}.

(** A process given by its callback arguments and its effect on the files. *)
Definition sample_child (err : option exec_error) (out errs : string)
    (effect : gmap string node → gmap string node)
  : string → gmap string node → child_result :=
  λ _ fs, ChildResult err out errs (effect fs).

Definition sample_run (child : string → gmap string node → child_result)
    (lang code : string) (fs : gmap string node) : completion unit * world :=
  executeCode false "/app" sample_bytes "2024-05-01T10:00:00.000Z" child
    lang code (start fs).

(** A compiler run that leaves a binary and prints a warning. *)
Definition builds_binary : string → gmap string node → child_result :=
  sample_child None "hi" "warning: unused variable"
    (λ fs, <["/app/temp/bin_01abff00107f800a" := File "ELF"]> fs).

(** A program that fails without writing to standard error. *)
Definition fails_silently : string → gmap string node → child_result :=
  sample_child (Some (ExecError false "Command failed: exit code 1")) "" ""
    (λ fs, fs).

(** A program that prints, loops and is killed by the timeout. *)
Definition loops_forever : string → gmap string node → child_result :=
  sample_child (Some (ExecError true "Command failed")) "tick" "tock"
    (λ fs, fs).

(** A script that prints more than [exec] keeps and then exits with
    status zero: [exec] hands over the text it kept (shortened here) and
    the error of the overflow. *)
Definition floods_stdout : string → gmap string node → child_result :=
  λ command fs,
    ChildResult
      (exec_err command "" (Ending (Some 0%N) None false (Some "stdout")))
      "aaaaaaaa" "" fs.

(** A C++ program that, once compiled, replaces its own source file by a
    directory of the same name and then loops until the timeout. *)
Definition swaps_source_cpp : string → gmap string node → child_result :=
  sample_child (Some (ExecError true "Command failed")) "" ""
    (λ fs, <["/app/temp/s_01abff00107f800a.cpp" := Directory]>
             (<["/app/temp/bin_01abff00107f800a" := File "ELF"]> fs)).

(** The same trick in a script. *)
Definition swaps_source_py : string → gmap string node → child_result :=
  sample_child None "" ""
    (λ fs, <["/app/temp/s_01abff00107f800a.py" := Directory]> fs).

(** The working directory while a Java run is between [javac] and [java]. *)
Definition java_in_flight : gmap string node :=
  <["/app/temp/Main.class" := File "cafebabe"]>
    (<["/app/temp/Main.java" := File "public class Main {}"]> sample_fs).

(** ** Further readings, used for the properties beyond the claims *)

(** The command lines handed to [exec], in order. *)
Fixpoint commands (t : list event) : list string :=
  match t with
  | [] => []
  | EvExec c _ :: t' => c :: commands t'
  | _ :: t' => commands t'
  end.

(** The position of a character in a string (its length if absent), and
    with it the value of a hexadecimal digit. *)
Fixpoint index_of (c : ascii) (s : string) : N :=
  match s with
  | EmptyString => 0
  | String d r => if Ascii.eqb c d then 0 else 1 + index_of c r
  end%N.

Definition hex_value (c : ascii) : N := index_of c "0123456789abcdef".

(** A process killed by the timeout that wrote nothing and left the files
    as they were. *)
Definition hangs_quietly : string → gmap string node → child_result :=
  sample_child (Some (ExecError true "Command failed")) "" "" (λ fs, fs).

(** A second source of random bytes. *)
Definition other_bytes (n : nat) : list byte :=
  take n [x5c; x00; xe3; x11; x9a; x42; x07; xfe].

(** ** The HTTP layer

    The request handler of server.js (lines 128-182) on a POSIX host, with
    the functions of [path.posix] it calls on a path taken from the
    request.  [JSON.parse] is a parameter; of the parsed body the handler
    reads two properties, modelled here as absent or a string (a property
    of another JSON type is outside the model).  The body sent with a
    reply is kept structured: [JSON.stringify] of an object is the object. *)

(** [s.split('/')]: the parts between slashes, at least one. *)
Fixpoint segments (s : string) : list string :=
  match s with
  | EmptyString => [EmptyString]
  | String c r =>
      if Ascii.eqb c "/" then EmptyString :: segments r
      else match segments r with
           | seg :: rest => String c seg :: rest
           | [] => [String c EmptyString]
           end
  end.

(** [parts.join('/')] *)
Fixpoint join_slash (parts : list string) : string :=
  match parts with
  | [] => ""
  | [p] => p
  | p :: rest => p +:+ "/" +:+ join_slash rest
  end.

(** One segment in [normalizeString] of node's path module: the segments
    kept so far, last first.  Empty and [.] segments are dropped; [..]
    removes the last segment kept, unless there is none or it is [..]
    itself, in which case [..] is kept for a relative path and dropped for
    an absolute one. *)
Definition norm_step (allowAboveRoot : bool) (kept : list string)
    (seg : string) : list string :=
  if String.eqb seg "" || String.eqb seg "." then kept
  else if String.eqb seg ".." then
    match kept with
    | top :: rest =>
        if String.eqb top ".."
        then (if allowAboveRoot then seg :: kept else kept)
        else rest
    | [] => if allowAboveRoot then [seg] else []
    end
  else seg :: kept.

Fixpoint ends_with_slash (s : string) : bool :=
  match s with
  | EmptyString => false
  | String c EmptyString => Ascii.eqb c "/"
  | String _ r => ends_with_slash r
  end.

(** [path.posix.normalize] *)
Definition posix_normalize (p : string) : string :=
  match p with
  | EmptyString => "."
  | String c _ =>
      let isAbsolute := Ascii.eqb c "/" in
      let trailingSeparator := ends_with_slash p in
      let body :=
        join_slash (rev (fold_left (norm_step (negb isAbsolute))
                           (segments p) [])) in
      match body with
      | EmptyString =>
          if isAbsolute then "/" else if trailingSeparator then "./" else "."
      | _ =>
          (if isAbsolute then "/" else "") +:+ body
          +:+ (if trailingSeparator then "/" else "")
      end
  end.

(** [path.posix.join] of two strings: empty arguments are skipped. *)
Definition posix_join (a b : string) : string :=
  match a, b with
  | EmptyString, EmptyString => "."
  | EmptyString, _ => posix_normalize b
  | _, EmptyString => posix_normalize a
  | _, _ => posix_normalize (a +:+ "/" +:+ b)
  end.

(** The part of a string from its last dot on, if it has a dot. *)
Fixpoint from_last_dot (s : string) : option string :=
  match s with
  | EmptyString => None
  | String c r =>
      match from_last_dot r with
      | Some e => Some e
      | None => if Ascii.eqb c "." then Some s else None
      end
  end.

(** The last part of a path that is not empty: what is left of its last
    segment once trailing slashes are skipped. *)
Definition posix_basename (p : string) : string :=
  default "" (last (List.filter (λ seg, negb (String.eqb seg ""))
                      (segments p))).

(** [path.posix.extname]: from the last dot of the base name on, unless
    that dot is its first character or the base name is [..]. *)
Definition posix_extname (p : string) : string :=
  match posix_basename p with
  | EmptyString => ""
  | String c r =>
      if String.eqb (String c r) ".." then ""
      else default "" (from_last_dot r)
  end.

(** [url.substring(1)] *)
Definition substring1 (s : string) : string :=
  match s with
  | EmptyString => ""
  | String _ r => r
  end.

(** The own properties of [mimeTypes], lines 128-134. *)
Definition mimeTypes : list (string * string) :=
  [ (".html", "text/html"); (".js", "text/javascript"); (".css", "text/css");
    (".json", "application/json"); (".svg", "image/svg+xml") ].

Fixpoint own_mime (tbl : list (string * string)) (k : string)
  : option string :=
  match tbl with
  | [] => None
  | (k', v) :: rest => if String.eqb k k' then Some v else own_mime rest k
  end.

(** The value of a header: a string, or a member inherited from
    [Object.prototype] when a lookup in an object literal finds one. *)
Inductive header_value :=
| HText (s : string)
| HBuiltin (key : string).

(** [mimeTypes[ext] || 'text/plain'] *)
Definition content_type (ext : string) : header_value :=
  match own_mime mimeTypes ext with
  | Some EmptyString => HText "text/plain"
  | Some v => HText v
  | None =>
      if existsb (String.eqb ext) Object_prototype_keys then HBuiltin ext
      else HText "text/plain"
  end.

Record request := Request {
  req_method : string;
  req_url : string;
  req_chunks : list string
}.

(** The two properties read off the parsed body. *)
Record params := Params {
  param_language : option string;
  param_code : option string
}.

Inductive payload :=
| NoPayload
| Text (s : string)
| Json (r : response)
| Bytes (content : string).

Record reply := Reply {
  status : N;
  headers : list (string * header_value);
  body : payload
}.

(** The headers set on every response before the request is looked at. *)
Definition cors : list (string * header_value) :=
  [ ("Access-Control-Allow-Origin", HText "*");
    ("Access-Control-Allow-Headers", HText "Content-Type") ].

Definition json_reply (code : N) (r : response) : reply :=
  Reply code (cors ++ [("Content-Type", HText "application/json")]) (Json r).

Definition invalid_request : reply :=
  json_reply 400 (Response None None (Some "Invalid request") None).

(** [!v] for a property that is absent or a string. *)
Definition falsy (v : option string) : bool :=
  match v with
  | None | Some EmptyString => true
  | Some _ => false
  end.

Section Server.

Variable dirname_ : string.
Variable randomBytes : nat → list byte.
Variable now : string.
Variable child : string → gmap string node → child_result.
(** [JSON.parse] followed by the destructuring of line 149; [None] when
    either throws. *)
Variable JSON_parse : string → option params.

(** Lines 147-160: the body has arrived. *)
Definition on_end (body : string) (fs : gmap string node)
  : list reply * world :=
  match JSON_parse body with
  | None => ([invalid_request], start fs)
  | Some p =>
      if falsy (param_language p) || falsy (param_code p)
      then ([invalid_request], start fs)
      else
        match executeCode false dirname_ randomBytes now child
                (default "" (param_language p)) (default "" (param_code p))
                (start fs) with
        | (Normal _, w) => (json_reply 200 <$> delivered (trace w), w)
        | (Throw _, w) =>
            ((json_reply 200 <$> delivered (trace w)) ++ [invalid_request], w)
        end
  end.

(** Lines 164-181: a file below the directory of server.js.  The call
    of [fs.readFile] at line 174 is recorded; it fails on a missing path
    and on a directory. *)
Definition serve_static (url : string) (fs : gmap string node)
  : reply * world :=
  let file := if String.eqb url "/" then "index.html" else substring1 url in
  let ext := posix_extname file in
  let filePath := posix_join dirname_ file in
  if negb (String.prefix dirname_ filePath)
  then (Reply 403 cors (Text "Forbidden"), start fs)
  else
    (match fs !! filePath with
     | Some (File content) =>
         Reply 200 (cors ++ [("Content-Type", content_type ext)])
           (Bytes content)
     | _ => Reply 404 cors (Text "Not Found")
     end,
     World fs [EvReadFile filePath]).

(** Lines 136-182. *)
Definition handler (req : request) (fs : gmap string node)
  : list reply * world :=
  if String.eqb (req_method req) "OPTIONS"
  then ([Reply 200 cors NoPayload], start fs)
  else if String.eqb (req_method req) "POST"
          && String.eqb (req_url req) "/execute"
  then on_end (String.concat "" (req_chunks req)) fs
  else ([(serve_static (req_url req) fs).1], (serve_static (req_url req) fs).2).

End Server.

Fixpoint slash_free (s : string) : bool :=
  match s with
  | EmptyString => true
  | String c r => negb (Ascii.eqb c "/") && slash_free r
  end.

(** A path part that [normalize] keeps as it is: not empty, without a
    slash, and neither [.] nor [..]. *)
Definition ordinary (seg : string) : bool :=
  negb (String.eqb seg "") && negb (String.eqb seg ".")
  && negb (String.eqb seg "..") && slash_free seg.

(** The characters a URL carries as they are: letters, digits and
    [-], [.], [_], [~].  The server decodes nothing, and node refuses a
    request line with a space or a control character before the handler
    runs, so a file is reachable by its name when the name is written in
    such characters. *)
Definition unreserved (c : ascii) : bool :=
  let n := nat_of_ascii c in
  (Nat.leb 65 n && Nat.leb n 90) || (Nat.leb 97 n && Nat.leb n 122)
  || (Nat.leb 48 n && Nat.leb n 57)
  || Nat.eqb n 45 || Nat.eqb n 46 || Nat.eqb n 95 || Nat.eqb n 126.

(** A path part written in unreserved characters only. *)
Fixpoint url_part (s : string) : bool :=
  match s with
  | EmptyString => true
  | String c r => unreserved c && url_part r
  end.

(** The absolute path with the given parts. *)
Definition abs_path (parts : list string) : string :=
  "/" +:+ join_slash parts.

(** A stand-in for [JSON.parse] on sample requests: the body
    [language|code] parses to the two properties, a body without a bar
    does not parse. *)
Fixpoint split_bar (s : string) : option (string * string) :=
  match s with
  | EmptyString => None
  | String c r =>
      if Ascii.eqb c "|" then Some (EmptyString, r)
      else match split_bar r with
           | Some (l, t) => Some (String c l, t)
           | None => None
           end
  end.

Definition sample_parse (body : string) : option params :=
  match split_bar body with
  | Some (l, c) => Some (Params (Some l) (Some c))
  | None => None
  end.

Definition sample_handler (child : string → gmap string node → child_result)
    (req : request) (fs : gmap string node) : list reply * world :=
  handler "/app" sample_bytes "2024-05-01T10:00:00.000Z" child sample_parse
    req fs.

(** ** The page script: [escapeHtml]

    The helper of the page that shows results (the second source file,
    lines 200-208).  Its argument is a property of the answer, absent or a
    string. *)

(** [s.replace(/c/g, by)] for one character [c] and a replacement text
    without [$]. *)
Fixpoint replace_all (c : ascii) (by_ : string) (s : string) : string :=
  match s with
  | EmptyString => EmptyString
  | String a r =>
      if Ascii.eqb a c then by_ +:+ replace_all c by_ r
      else String a (replace_all c by_ r)
  end.

Definition dquote_char : ascii := ascii_of_nat 34.
Definition squote_char : ascii := ascii_of_nat 39.

Definition escapeHtml (text : option string) : string :=
  match text with
  | None | Some EmptyString => ""
  | Some s =>
      replace_all squote_char "&#039;"
        (replace_all dquote_char "&quot;"
           (replace_all ">" "&gt;"
              (replace_all "<" "&lt;"
                 (replace_all "&" "&amp;" s))))
  end.

(** What one character becomes. *)
Definition escape_char (a : ascii) : string :=
  if Ascii.eqb a "&" then "&amp;"
  else if Ascii.eqb a "<" then "&lt;"
  else if Ascii.eqb a ">" then "&gt;"
  else if Ascii.eqb a dquote_char then "&quot;"
  else if Ascii.eqb a squote_char then "&#039;"
  else String a EmptyString.

Fixpoint escape_each (s : string) : string :=
  match s with
  | EmptyString => EmptyString
  | String a r => escape_char a +:+ escape_each r
  end.

Fixpoint occurs (c : ascii) (s : string) : bool :=
  match s with
  | EmptyString => false
  | String a r => Ascii.eqb a c || occurs c r
  end.

(** ** Start of the server

    Line 14, run once when server.js is loaded:
    [if (!fs.existsSync(TEMP_DIR)) fs.mkdirSync(TEMP_DIR)].  The result is
    [None] when [mkdirSync] throws, which it does unless the parent is a
    directory. *)
Definition startup (win32 : bool) (dirname_ : string)
    (fs : gmap string node) : option (gmap string node) :=
  let temp := TEMP_DIR win32 dirname_ in
  match fs !! temp with
  | Some _ => Some fs
  | None =>
      match fs !! path_dirname win32 temp with
      | Some Directory => Some (<[temp := Directory]> fs)
      | _ => None
      end
  end.


(** * Properties *)
Lemma sep_free_app s t :
  sep_free (s +:+ t) = sep_free s && sep_free t.
Proof.
  induction s as [|c s IH]; simpl; [done|].
  rewrite IH. by rewrite !andb_assoc.
Qed.

Lemma hex_of_byte_sep_free b : sep_free (hex_of_byte b) = true.
Proof. destruct b; vm_compute; reflexivity. Qed.

Lemma toString_hex_sep_free bs : sep_free (toString_hex bs) = true.
Proof.
  induction bs as [|b bs IH]; cbn [toString_hex]; [done|].
  by rewrite sep_free_app, hex_of_byte_sep_free, IH.
Qed.

Lemma sep_free_split_last win32 s :
  sep_free s = true → split_last win32 s = None.
Proof.
  induction s as [|c s IH]; simpl; [done|].
  intros H. apply andb_prop in H as [H Hs]. apply andb_prop in H as [H1 H2].
  rewrite (IH Hs). unfold is_sep.
  destruct (Ascii.eqb c "/"); [done|].
  destruct win32; [|done]. by destruct (Ascii.eqb c "\").
Qed.

Lemma split_last_join win32 dir name :
  sep_free name = true →
  split_last win32 (path_join win32 dir name) = Some dir.
Proof.
  intros Hn. unfold path_join.
  induction dir as [|c d IH]; simpl.
  - destruct win32; simpl; by rewrite (sep_free_split_last _ _ Hn).
  - by rewrite IH.
Qed.

(** [path.dirname] undoes [path.join] on a separator-free name. *)
Lemma path_dirname_join win32 dir name :
  dir ≠ "" → sep_free name = true →
  path_dirname win32 (path_join win32 dir name) = dir.
Proof.
  intros Hd Hn. unfold path_dirname. rewrite (split_last_join _ _ _ Hn).
  by destruct dir.
Qed.

Lemma path_join_nonempty win32 dir name : path_join win32 dir name ≠ "".
Proof. unfold path_join, path_sep. destruct dir, win32; done. Qed.

(** ** The recipe table *)

Lemma own_property_shape win32 lang r :
  own_property (LANGUAGES win32) lang = Some r →
  sep_free (ext r) = true ∧
  (filename r = None ∨ filename r = Some "Main.java").
Proof.
  unfold LANGUAGES. cbn [own_property].
  repeat (destruct (String.eqb lang _);
          [intros [= <-]; split; [reflexivity | auto] |]).
  discriminate.
Qed.

Lemma LANGUAGES_get_recipe win32 lang r :
  LANGUAGES_get win32 lang = VRecipe r →
  own_property (LANGUAGES win32) lang = Some r.
Proof.
  unfold LANGUAGES_get. destruct (own_property _ _); [congruence|].
  by destruct (existsb _ _).
Qed.

(** The file name of a run never contains a separator. *)
Lemma fileName_sep_free win32 lang rid :
  sep_free rid = true →
  sep_free (fileName_of (LANGUAGES_get win32 lang) rid) = true.
Proof.
  intros Hrid. unfold fileName_of.
  destruct (LANGUAGES_get win32 lang) as [r| |] eqn:E; cbn.
  - apply LANGUAGES_get_recipe, own_property_shape in E as [He Hf].
    destruct Hf as [-> | ->]; cbn; [|reflexivity].
    rewrite ?sep_free_app, ?Hrid, ?He; reflexivity.
  - rewrite ?sep_free_app, ?Hrid; reflexivity.
  - rewrite ?sep_free_app, ?Hrid; reflexivity.
Qed.

(** ** cleanup *)

Ltac run_M :=
  unfold mbind, M_bind, mret, M_ret, emit, get_files, put_files, throw,
    when, console_error, console_log, callback; cbn.

(** [cleanup] never throws; it leaves the files of [sweep] and makes the
    calls of [sweep_trace] on its four targets. *)
Lemma cleanup_eq win32 filePath rid e w :
  let dir := path_dirname win32 filePath in
  let bin := path_join win32 dir ("bin_" +:+ rid) in
  let targets :=
    [ filePath; bin; bin +:+ ".exe"; path_join win32 dir "Main.class" ] in
  cleanup win32 filePath rid e w =
    (Normal (),
     World (sweep targets (files w)) (trace w ++ sweep_trace targets (files w))).
Proof.
  intros dir bin targets. destruct w as [fs t].
  unfold cleanup, try_catch, existsSync, unlinkSync. run_M.
  fold dir. fold bin.
  repeat match goal with
         | H : ?m !! ?k = _ |- context [ ?m !! ?k ] => rewrite H; run_M
         | |- context [ ?m !! ?k ] =>
             lazymatch m with
             | context [ _ !! _ ] => fail
             | _ => destruct (m !! k) as [[?|]|] eqn:?; run_M
             end
         end;
    rewrite <- ?app_assoc; reflexivity.
Qed.

(** ** Reading traces *)

Lemma delivered_app t u : delivered (t ++ u) = delivered t ++ delivered u.
Proof.
  induction t as [|[] t IH]; cbn; rewrite ?IH; reflexivity.
Qed.

Lemma exits_app t u : exits (t ++ u) = exits t ++ exits u.
Proof.
  induction t as [|[] t IH]; cbn; rewrite ?IH; reflexivity.
Qed.

Lemma faults_app t u : faults (t ++ u) = faults t ++ faults u.
Proof.
  induction t as [|[| | | | | |? []| |] t IH]; cbn; rewrite ?IH; reflexivity.
Qed.

Lemma probed_app p t u : probed p (t ++ u) = probed p t || probed p u.
Proof. apply existsb_app. Qed.

(** ** Guarded removals *)

Lemma sweep_trace_delivered targets fs : delivered (sweep_trace targets fs) = [].
Proof.
  revert fs. induction targets as [|p rest IH]; intros fs; cbn; [done|].
  destruct (fs !! p) as [[d|]|]; cbn; auto.
Qed.

Lemma sweep_trace_exits targets fs : exits (sweep_trace targets fs) = [].
Proof.
  revert fs. induction targets as [|p rest IH]; intros fs; cbn; [done|].
  destruct (fs !! p) as [[d|]|]; cbn; auto.
Qed.

(** A sweep only removes. *)
Lemma sweep_lookup targets fs p :
  sweep targets fs !! p = None ∨ sweep targets fs !! p = fs !! p.
Proof.
  revert fs. induction targets as [|q rest IH]; intros fs; cbn; [by right|].
  destruct (fs !! q) as [[d|]|] eqn:E; [|by right|by apply IH].
  destruct (IH (delete q fs)) as [H | H]; [by left|].
  rewrite H. destruct (decide (q = p)) as [-> | Hne].
  - left. apply lookup_delete_eq.
  - right. by apply lookup_delete_ne.
Qed.

Lemma sweep_lookup_None targets fs p :
  fs !! p = None → sweep targets fs !! p = None.
Proof. intros H. destruct (sweep_lookup targets fs p); congruence. Qed.

(** Paths outside the targets are left as they were. *)
Lemma sweep_frame targets fs p :
  p ∉ targets → sweep targets fs !! p = fs !! p.
Proof.
  revert fs. induction targets as [|q rest IH]; intros fs Hp; cbn; [done|].
  apply not_elem_of_cons in Hp as [Hne Hp].
  destruct (fs !! q) as [[d|]|] eqn:E; [|done|by apply IH].
  rewrite (IH _ Hp). by apply lookup_delete_ne.
Qed.

(** If no error was logged, every target is gone. *)
Lemma sweep_clean targets fs p :
  faults (sweep_trace targets fs) = [] →
  p ∈ targets → sweep targets fs !! p = None.
Proof.
  revert fs. induction targets as [|q rest IH]; intros fs Hf Hp; cbn in *.
  - by apply elem_of_nil in Hp.
  - destruct (fs !! q) as [[d|]|] eqn:E; cbn in Hf; [|done|].
    + apply elem_of_cons in Hp as [-> | Hp]; [|by apply IH].
      apply sweep_lookup_None, lookup_delete_eq.
    + apply elem_of_cons in Hp as [-> | Hp]; [|by apply IH].
      by apply sweep_lookup_None.
Qed.

(** Errors are logged exactly for directories. *)
Lemma sweep_no_directory targets fs :
  (∀ p, p ∈ targets → fs !! p ≠ Some Directory) →
  faults (sweep_trace targets fs) = [].
Proof.
  revert fs. induction targets as [|q rest IH]; intros fs H; cbn; [done|].
  destruct (fs !! q) as [[d|]|] eqn:E; cbn.
  - apply IH. intros p Hp. destruct (decide (q = p)) as [-> | Hne].
    + by rewrite lookup_delete_eq.
    + rewrite lookup_delete_ne by done. apply H. by right.
  - exfalso. apply (H q); [by left | done].
  - apply IH. intros p Hp. apply H. by right.
Qed.

(** A target is reached unless an error was logged on another path. *)
Lemma sweep_reaches targets fs p :
  p ∈ targets →
  forallb (String.eqb p) (faults (sweep_trace targets fs)) = true →
  probed p (sweep_trace targets fs) = true ∧
  ∀ d, sweep targets fs !! p ≠ Some (File d).
Proof.
  revert fs. induction targets as [|q rest IH]; intros fs Hp Hf.
  - by apply elem_of_nil in Hp.
  - cbn in *. destruct (String.eqb_spec p q) as [<- | Hne].
    + split; [done|]. intros d.
      destruct (fs !! p) as [[d'|]|] eqn:E.
      * by rewrite sweep_lookup_None by apply lookup_delete_eq.
      * by rewrite E.
      * by rewrite sweep_lookup_None.
    + apply elem_of_cons in Hp as [-> | Hp]; [done|]. cbn.
      destruct (fs !! q) as [[d'|]|] eqn:E; cbn in *.
      * by apply IH.
      * destruct (String.eqb_spec p q); [done | discriminate].
      * by apply IH.
Qed.

(** ** The shapes of a run *)

Section Runs.

Variable win32 : bool.
Variable dirname_ : string.
Variable randomBytes : nat → list byte.
Variable now : string.
Variable child : string → gmap string node → child_result.

Local Abbreviation run := (executeCode win32 dirname_ randomBytes now child).
Local Abbreviation TEMP := (TEMP_DIR win32 dirname_).
Local Abbreviation rid := (runId randomBytes).
Local Abbreviation src := (sourcePath win32 dirname_ randomBytes).
Local Abbreviation targets := (artifacts win32 dirname_ randomBytes).
Local Abbreviation write := (writeFileSync win32).

Lemma dirname_sourcePath lang : path_dirname win32 (src lang) = TEMP.
Proof.
  unfold sourcePath. apply path_dirname_join.
  - apply path_join_nonempty.
  - apply fileName_sep_free, toString_hex_sep_free.
Qed.

(** A write either stores the file or throws and changes nothing. *)
Lemma writeFileSync_cases p data fs :
  write p data (start fs)
    = (Normal (), World (<[p := File data]> fs) [EvWriteFile p data])
  ∨ ∃ e, write p data (start fs)
           = (Throw e, World fs [EvWriteFile p data]).
Proof.
  unfold writeFileSync, start. run_M.
  destruct (fs !! path_dirname win32 p) as [[d|]|]; run_M; eauto.
  destruct (fs !! p) as [[d|]|]; run_M; eauto.
Qed.

(** No recipe and no inherited member: refused at once. *)
Lemma run_undefined lang code fs :
  LANGUAGES_get win32 lang = VUndefined →
  run lang code (start fs)
    = (Normal (), World fs [EvCallback (unsupported_response lang)]).
Proof. intros E. unfold executeCode. rewrite E. reflexivity. Qed.

(** The write throws: the failure is reported and nothing else happens. *)
Lemma run_write_failed lang code fs e :
  truthy (LANGUAGES_get win32 lang) = true →
  (write (src lang) code (start fs)).1 = Throw e →
  run lang code (start fs)
    = (Normal (),
       World fs [EvWriteFile (src lang) code;
                 EvCallback write_failed_response]).
Proof.
  intros Ht Hw. unfold executeCode. rewrite Ht. cbn [negb].
  fold rid. fold TEMP. change (path_join win32 TEMP _) with (src lang).
  unfold try_catch. cbv beta delta [mbind M_bind] iota.
  destruct (writeFileSync_cases (src lang) code fs) as [H | [e' H]];
    rewrite H in *; [discriminate|]. reflexivity.
Qed.

(** A recipe and a successful write: the process runs, then [cleanup],
    then the callback. *)
Lemma run_recipe lang code fs r :
  LANGUAGES_get win32 lang = VRecipe r →
  (write (src lang) code (start fs)).1 = Normal () →
  let command := cmd r (src lang) TEMP ("bin_" +:+ rid) in
  let x := child command (<[src lang := File code]> fs) in
  run lang code (start fs)
    = (Normal (),
       World (sweep (targets lang) (child_files x))
         ([ EvWriteFile (src lang) code;
            EvConsoleLog ("[" +:+ now +:+ "] EXEC " +:+ lang +:+ ": " +:+ rid);
            EvExec command TIMEOUT_MS;
            EvExit x ]
          ++ sweep_trace (targets lang) (child_files x)
          ++ [ EvCallback (answer x) ])).
Proof.
  intros E Hw command x. unfold executeCode. rewrite E. cbn [truthy negb].
  fold rid. fold TEMP. rewrite <- E.
  change (path_join win32 TEMP _) with (src lang).
  unfold try_catch. cbv beta delta [mbind M_bind] iota.
  destruct (writeFileSync_cases (src lang) code fs) as [H | [e' H]];
    rewrite H in *; [|discriminate]. clear H Hw.
  rewrite E. unfold call_cmd, exec, on_exit.
  match goal with |- _ = ?rhs => set (R := rhs) end.
  run_M. fold command. fold x.
  rewrite cleanup_eq. cbn [files trace].
  rewrite dirname_sourcePath. subst R.
  unfold answer. destruct (child_err x) as [e|]; [destruct (killed e)|];
    unfold callback, emit; cbn [files trace];
    rewrite <- ?app_assoc; reflexivity.
Qed.

(** A member inherited from [Object.prototype] and a successful write:
    the file is stored and the call of [config.cmd] throws. *)
Lemma run_builtin lang code fs k :
  LANGUAGES_get win32 lang = VBuiltin k →
  (write (src lang) code (start fs)).1 = Normal () →
  run lang code (start fs)
    = (Throw (TypeError "config.cmd is not a function"),
       World (<[src lang := File code]> fs) [EvWriteFile (src lang) code]).
Proof.
  intros E Hw. unfold executeCode. rewrite E. cbn [truthy negb].
  fold rid. fold TEMP. rewrite <- E.
  change (path_join win32 TEMP _) with (src lang).
  unfold try_catch. cbv beta delta [mbind M_bind] iota.
  destruct (writeFileSync_cases (src lang) code fs) as [H | [e' H]];
    rewrite H in *; [|discriminate].
  rewrite E. reflexivity.
Qed.

End Runs.

Section Shapes.

Variable win32 : bool.
Variable dirname_ : string.
Variable randomBytes : nat → list byte.
Variable now : string.
Variable child : string → gmap string node → child_result.

Local Abbreviation run := (executeCode win32 dirname_ randomBytes now child).
Local Abbreviation TEMP := (TEMP_DIR win32 dirname_).
Local Abbreviation rid := (runId randomBytes).
Local Abbreviation src := (sourcePath win32 dirname_ randomBytes).
Local Abbreviation targets := (artifacts win32 dirname_ randomBytes).
Local Abbreviation write := (writeFileSync win32).

(** The process of a run, when it starts one. *)
Lemma run_exited lang code fs x :
  exits (trace (run lang code (start fs)).2) = [x] →
  ∃ r, LANGUAGES_get win32 lang = VRecipe r ∧
       (write (src lang) code (start fs)).1 = Normal () ∧
       x = child (cmd r (src lang) TEMP ("bin_" +:+ rid))
             (<[src lang := File code]> fs).
Proof.
  intros Hx.
  destruct (writeFileSync_cases win32 (src lang) code fs) as [Hw | [e Hw]];
    apply (f_equal fst) in Hw; cbn [fst] in Hw;
    destruct (LANGUAGES_get win32 lang) as [r | k |] eqn:E.
  - exists r. repeat split; [done|].
    rewrite (run_recipe _ _ _ _ _ _ _ _ r E Hw) in Hx. cbn [snd trace] in Hx.
    rewrite !exits_app, sweep_trace_exits in Hx. cbn [exits app] in Hx.
    congruence.
  - by rewrite (run_builtin _ _ _ _ _ _ _ _ k E Hw) in Hx.
  - by rewrite (run_undefined _ _ _ _ _ _ _ _ E) in Hx.
  - rewrite (run_write_failed _ _ _ _ _ _ _ _ e) in Hx;
      [done | by rewrite E | done].
  - rewrite (run_write_failed _ _ _ _ _ _ _ _ e) in Hx;
      [done | by rewrite E | done].
  - by rewrite (run_undefined _ _ _ _ _ _ _ _ E) in Hx.
Qed.

(** After the process, a run goes through [cleanup] and then delivers
    the answer chosen from [err], [stdout] and [stderr]. *)
Lemma run_after_exit lang code fs x :
  exits (trace (run lang code (start fs)).2) = [x] →
  ∃ pre,
    delivered pre = [] ∧
    run lang code (start fs)
      = (Normal (),
         World (sweep (targets lang) (child_files x))
           (pre ++ EvExit x :: sweep_trace (targets lang) (child_files x)
                ++ [EvCallback (answer x)])).
Proof.
  intros Hx. destruct (run_exited _ _ _ _ Hx) as (r & E & Hw & ->).
  rewrite (run_recipe _ _ _ _ _ _ _ _ r E Hw).
  eexists [_; _; _]. split; [|reflexivity]. reflexivity.
Qed.

Lemma run_delivers lang code fs x :
  exits (trace (run lang code (start fs)).2) = [x] →
  delivered (trace (run lang code (start fs)).2) = [answer x].
Proof.
  intros Hx. destruct (run_after_exit _ _ _ _ Hx) as (pre & Hpre & ->).
  cbn [snd trace]. rewrite delivered_app, Hpre. cbn [app delivered].
  by rewrite delivered_app, sweep_trace_delivered.
Qed.

Lemma run_faults lang code fs x :
  exits (trace (run lang code (start fs)).2) = [x] →
  faults (trace (run lang code (start fs)).2)
    = faults (sweep_trace (targets lang) (child_files x)).
Proof.
  intros Hx. destruct (run_exited _ _ _ _ Hx) as (r & E & Hw & ->).
  rewrite (run_recipe _ _ _ _ _ _ _ _ r E Hw). cbn [snd trace].
  rewrite !faults_app. cbn [faults app]. by rewrite app_nil_r.
Qed.

End Shapes.

(** ** The dispatcher against its specification *)

Section Claims.

Variable win32 : bool.
Variable dirname_ : string.
Variable randomBytes : nat → list byte.
Variable now : string.
Variable child : string → gmap string node → child_result.

Local Abbreviation run := (executeCode win32 dirname_ randomBytes now child).
Local Abbreviation TEMP := (TEMP_DIR win32 dirname_).
Local Abbreviation rid := (runId randomBytes).
Local Abbreviation src := (sourcePath win32 dirname_ randomBytes).
Local Abbreviation targets := (artifacts win32 dirname_ randomBytes).
Local Abbreviation class := (classPath win32 dirname_).
Local Abbreviation write := (writeFileSync win32).


(** C3.  A call whose process came to an end delivers one result, and
    that result is the timeout report, of the kind [Timeout] (which has
    no fields), exactly when the process ended with an error that says it
    was killed ([err.killed]).  An error that does not say so is answered
    by a failure report, an object and a kind different from the timeout
    report, and an ending without error by neither. *)
Theorem timeout_reported lang code fs x :
  exits (trace (run lang code (start fs)).2) = [x] →
  ∃ r, delivered (trace (run lang code (start fs)).2) = [r] ∧
       (r = timeout_response ↔ ∃ e, child_err x = Some e ∧ killed e = true) ∧
       (kind_of r = Some Timeout ↔
        ∃ e, child_err x = Some e ∧ killed e = true) ∧
       (∀ e, child_err x = Some e → killed e = false →
             r = failure_response (child_stderr x) e ∧
             ∃ d, kind_of r = Some (RuntimeOrCompileFailure d)).
Proof.
  intros Hx. rewrite (run_delivers _ _ _ _ _ _ _ _ _ Hx).
  exists (answer x). split; [done|]. unfold answer.
  destruct (child_err x) as [[[] m]|]; cbn [killed].
  - split; [split; [by eexists | done]|].
    split; [split; [by eexists | done]|]. by intros e [= <-].
  - split; [split; [done | by intros (e & [= <-] & ?)]|].
    split; [split; [by destruct (child_stderr x)
                   | by intros (e & [= <-] & ?)]|].
    intros e [= <-] _. split; [done|].
    destruct (child_stderr x); by eexists.
  - split; [split; [done | by intros (e & ? & _)]|].
    split; [split; [done | by intros (e & ? & _)]|]. by intros e.
Qed.

(** C4.  When the process ended with an error and was not killed, the
    one result delivered is a failure carrying the captured standard
    error if that is not empty, and the error's message otherwise. *)
Theorem failure_reported lang code fs x e :
  exits (trace (run lang code (start fs)).2) = [x] →
  child_err x = Some e →
  killed e = false →
  ∃ r, delivered (trace (run lang code (start fs)).2) = [r] ∧
       kind_of r = Some (RuntimeOrCompileFailure
                           (if String.eqb (child_stderr x) ""
                            then message e else child_stderr x)).
Proof.
  intros Hx He Hk. rewrite (run_delivers _ _ _ _ _ _ _ _ _ Hx).
  unfold answer. rewrite He, Hk. eexists. split; [reflexivity|].
  by destruct (child_stderr x).
Qed.

(** C5, as amended.  When the process exited with status zero, the one
    result delivered is a success carrying the captured standard output
    and standard error, whatever the latter holds, provided that neither
    stream passed the limit [exec] puts on captured text; when one did,
    [exec] reports an error and the result is a failure. *)
Theorem success_reported lang code fs x command en :
  exits (trace (run lang code (start fs)).2) = [x] →
  child_err x = exec_err command (child_stderr x) en →
  exit_code en = Some 0%N → signal en = None →
  ∃ r, delivered (trace (run lang code (start fs)).2) = [r] ∧
       kind_of r
       = Some (match over_buffer en with
               | None => Success (child_stdout x) (child_stderr x)
               | Some stream =>
                   RuntimeOrCompileFailure
                     (if String.eqb (child_stderr x) ""
                      then stream +:+ " maxBuffer length exceeded"
                      else child_stderr x)
               end).
Proof.
  intros Hx He Hc Hs. rewrite (run_delivers _ _ _ _ _ _ _ _ _ Hx).
  unfold answer. rewrite He. unfold exec_err. rewrite Hc, Hs.
  eexists. split; [reflexivity|].
  destruct (over_buffer en) as [stream|]; [|reflexivity].
  cbn [killed]. by destruct (child_stderr x).
Qed.

(** C6, as amended.  When [LANGUAGES[languageId]] is [undefined], the
    call delivers one configuration error with the text
    [Language '<languageId>' not supported.], makes no call on the file
    system, leaves the files as they were and starts no process. *)
Theorem unsupported_refused lang code fs :
  LANGUAGES_get win32 lang = VUndefined →
  (run lang code (start fs)).1 = Normal () ∧
  delivered (trace (run lang code (start fs)).2)
    = [unsupported_response lang] ∧
  kind_of (unsupported_response lang)
    = Some (ConfigurationError ("Language '" +:+ lang +:+ "' not supported.")) ∧
  touched (trace (run lang code (start fs)).2) = false ∧
  launched (trace (run lang code (start fs)).2) = false ∧
  files (run lang code (start fs)).2 = fs.
Proof.
  intros E. rewrite (run_undefined _ _ _ _ _ _ _ _ E). by repeat split.
Qed.

(** C7, as amended.  When the write of the source file throws, the call
    delivers one configuration error with the text
    [Server failed to write file.] right after the attempt, starts no
    process and leaves the files as they were. *)
Theorem write_failure_reported lang code fs e :
  truthy (LANGUAGES_get win32 lang) = true →
  (write (src lang) code (start fs)).1 = Throw e →
  (run lang code (start fs)).1 = Normal () ∧
  trace (run lang code (start fs)).2
    = [EvWriteFile (src lang) code; EvCallback write_failed_response] ∧
  kind_of write_failed_response
    = Some (ConfigurationError "Server failed to write file.") ∧
  launched (trace (run lang code (start fs)).2) = false ∧
  files (run lang code (start fs)).2 = fs.
Proof.
  intros Ht Hw. rewrite (run_write_failed _ _ _ _ _ _ _ _ e Ht Hw).
  by repeat split.
Qed.



End Claims.

(** ** What never throws, and what does *)

Section Totality.

Variable win32 : bool.
Variable dirname_ : string.
Variable randomBytes : nat → list byte.
Variable now : string.
Variable child : string → gmap string node → child_result.

Local Abbreviation run := (executeCode win32 dirname_ randomBytes now child).
Local Abbreviation src := (sourcePath win32 dirname_ randomBytes).

(** Every answer chosen after the process is of one of the kinds. *)
Lemma answer_kind x : ∃ k, kind_of (answer x) = Some k.
Proof.
  unfold answer. destruct (child_err x) as [e|]; [destruct (killed e)|];
    eexists; reflexivity.
Qed.

(** The answer is chosen from [err], [stdout] and [stderr] alone: what
    [cleanup] finds or fails to remove has no part in it. *)
Lemma answer_ignores_files x fs' :
  answer (ChildResult (child_err x) (child_stdout x) (child_stderr x) fs')
    = answer x.
Proof. reflexivity. Qed.

(** A key inherited from [Object.prototype] passes the [!config] test. *)
Lemma inherited_key_truthy lang :
  existsb (String.eqb lang) Object_prototype_keys = true →
  LANGUAGES_get win32 lang = VBuiltin lang.
Proof.
  intros H. unfold LANGUAGES_get. rewrite H.
  destruct (own_property (LANGUAGES win32) lang) as [r|] eqn:E; [|done].
  exfalso. revert H E. unfold LANGUAGES. cbn [own_property existsb].
  repeat match goal with
         | |- context [ String.eqb lang ?s ] =>
             destruct (String.eqb_spec lang s) as [-> | _];
             [vm_compute; intros; discriminate |]
         end.
  cbn. intros; discriminate.
Qed.

(** Unless the key is inherited from [Object.prototype], a call never
    throws and delivers exactly one result, of one of the four kinds. *)
Lemma run_total lang code fs :
  existsb (String.eqb lang) Object_prototype_keys = false →
  (run lang code (start fs)).1 = Normal () ∧
  ∃ r k, delivered (trace (run lang code (start fs)).2) = [r] ∧
         kind_of r = Some k.
Proof.
  intros Hk.
  destruct (LANGUAGES_get win32 lang) as [r | k |] eqn:E.
  - destruct (writeFileSync_cases win32 (src lang) code fs) as [Hw | [e Hw]];
      apply (f_equal fst) in Hw; cbn [fst] in Hw.
    + rewrite (run_recipe _ _ _ _ _ _ _ _ r E Hw). split; [done|].
      cbn [snd trace]. rewrite !delivered_app, sweep_trace_delivered.
      destruct (answer_kind
                  (child (cmd r (src lang) (TEMP_DIR win32 dirname_)
                            ("bin_" +:+ runId randomBytes))
                     (<[src lang := File code]> fs))) as [k Hkind].
      eexists _, k. split; [reflexivity | exact Hkind].
    + rewrite (run_write_failed _ _ _ _ _ _ _ _ e); [|by rewrite E|done].
      split; [done|]. by eexists _, _.
  - exfalso. revert E. unfold LANGUAGES_get. rewrite Hk.
    by destruct (own_property _ _).
  - rewrite (run_undefined _ _ _ _ _ _ _ _ E). split; [done|].
    by eexists _, _.
Qed.

(** With an inherited key and a working directory that accepts the
    write, the call stores a file, throws and delivers nothing. *)
Lemma inherited_key_escapes lang code fs :
  existsb (String.eqb lang) Object_prototype_keys = true →
  (writeFileSync win32 (src lang) code (start fs)).1 = Normal () →
  (run lang code (start fs)).1
    = Throw (TypeError "config.cmd is not a function") ∧
  delivered (trace (run lang code (start fs)).2) = [] ∧
  files (run lang code (start fs)).2 !! src lang = Some (File code).
Proof.
  intros Hk Hw. apply inherited_key_truthy in Hk.
  rewrite (run_builtin _ _ _ _ _ _ _ _ lang Hk Hw).
  repeat split. apply lookup_insert_eq.
Qed.

End Totality.

(** The extension handed to [cleanup] plays no part in what it does. *)
Lemma cleanup_ignores_ext win32 filePath rid e1 e2 w :
  cleanup win32 filePath rid e1 w = cleanup win32 filePath rid e2 w.
Proof. by rewrite !cleanup_eq. Qed.

(** ** The claims on sample runs *)

(** C8: with the language identifier [constructor], a request the server
    accepts, [executeCode] writes [s_<runId>undefined] into the working
    directory and throws a [TypeError]; no result is delivered and the
    file stays. *)
Theorem inherited_key_throws :
  sample_run loops_forever "constructor" "x" sample_fs
    = (Throw (TypeError "config.cmd is not a function"),
       World (<["/app/temp/s_01abff00107f800aundefined" := File "x"]> sample_fs)
         [EvWriteFile "/app/temp/s_01abff00107f800aundefined" "x"]).
Proof. vm_compute. reflexivity. Qed.



Lemma timeout_reported_witness :
  ∃ r, delivered (trace (sample_run loops_forever "python" "while True: pass"
                           sample_fs).2) = [r] ∧
       r = timeout_response ∧ kind_of r = Some Timeout.
Proof.
  destruct (timeout_reported false "/app" sample_bytes
              "2024-05-01T10:00:00.000Z" loops_forever "python"
              "while True: pass" sample_fs
              (loops_forever ""
                 (<["/app/temp/s_01abff00107f800a.py"
                      := File "while True: pass"]> sample_fs)))
    as (r & Hd & Hr & Hk & _); [vm_compute; reflexivity|].
  exists r. split; [exact Hd|].
  split; [apply Hr | apply Hk];
    exists (ExecError true "Command failed"); split; reflexivity.
Defined.

Lemma failure_reported_witness :
  ∃ r, delivered (trace (sample_run fails_silently "java" "class Main {"
                           sample_fs).2) = [r] ∧
       kind_of r = Some (RuntimeOrCompileFailure "Command failed: exit code 1").
Proof.
  refine (failure_reported false "/app" sample_bytes
            "2024-05-01T10:00:00.000Z" fails_silently "java" "class Main {"
            sample_fs
            (fails_silently ""
               (<["/app/temp/Main.java" := File "class Main {"]> sample_fs))
            (ExecError false "Command failed: exit code 1") _ _ _);
    vm_compute; reflexivity.
Defined.

Lemma success_reported_witness :
  ∃ r, delivered (trace (sample_run builds_binary "cpp" "int main(){}"
                           sample_fs).2) = [r] ∧
       kind_of r = Some (Success "hi" "warning: unused variable").
Proof.
  refine (success_reported false "/app" sample_bytes
            "2024-05-01T10:00:00.000Z" builds_binary "cpp" "int main(){}"
            sample_fs
            (builds_binary ""
               (<["/app/temp/s_01abff00107f800a.cpp" := File "int main(){}"]>
                  sample_fs))
            "" (Ending (Some 0%N) None false None) _ _ _ _);
    vm_compute; reflexivity.
Defined.

(** C5 fails as stated: a script that exits with status zero after
    printing more than [exec] keeps is answered by a failure. *)
Lemma success_counterexample :
  let command := "python3 " +:+ quoted "/app/temp/s_01abff00107f800a.py" in
  let x := floods_stdout command
             (<["/app/temp/s_01abff00107f800a.py" := File "print('a'*2000000)"]>
                sample_fs) in
  child_err x
    = exec_err command (child_stderr x)
        (Ending (Some 0%N) None false (Some "stdout")) ∧
  exits (trace (sample_run floods_stdout "python" "print('a'*2000000)"
                  sample_fs).2) = [x] ∧
  kind_of <$> delivered (trace (sample_run floods_stdout "python"
                                  "print('a'*2000000)" sample_fs).2)
    = [Some (RuntimeOrCompileFailure "stdout maxBuffer length exceeded")] ∧
  kind_of <$> delivered (trace (sample_run floods_stdout "python"
                                  "print('a'*2000000)" sample_fs).2)
    ≠ [Some (Success (child_stdout x) (child_stderr x))].
Proof. repeat split; vm_compute; (reflexivity || discriminate). Qed.

Lemma unsupported_refused_witness :
  delivered (trace (sample_run loops_forever "ruby" "puts 1" sample_fs).2)
    = [unsupported_response "ruby"] ∧
  touched (trace (sample_run loops_forever "ruby" "puts 1" sample_fs).2)
    = false ∧
  files (sample_run loops_forever "ruby" "puts 1" sample_fs).2 = sample_fs.
Proof.
  destruct (unsupported_refused false "/app" sample_bytes
              "2024-05-01T10:00:00.000Z" loops_forever "ruby" "puts 1"
              sample_fs) as (_ & Hd & _ & Ht & _ & Hf);
    [vm_compute; reflexivity|].
  exact (conj Hd (conj Ht Hf)).
Defined.

(** C6 fails as stated, in two ways.  [constructor] has no recipe, yet the
    call writes a file and delivers nothing; [ruby] has none either, and
    the message delivered is not the one of the specification. *)
Lemma unsupported_counterexample :
  own_property (LANGUAGES false) "constructor" = None ∧
  touched (trace (sample_run loops_forever "constructor" "x" sample_fs).2)
    = true ∧
  delivered (trace (sample_run loops_forever "constructor" "x" sample_fs).2)
    = [] ∧
  own_property (LANGUAGES false) "ruby" = None ∧
  kind_of <$> delivered (trace (sample_run loops_forever "ruby" "puts 1"
                                  sample_fs).2)
    ≠ [Some (ConfigurationError "language not supported")].
Proof. repeat split; vm_compute; (reflexivity || discriminate). Qed.

Lemma write_failure_reported_witness :
  trace (sample_run loops_forever "python" "print(1)" ∅).2
    = [EvWriteFile "/app/temp/s_01abff00107f800a.py" "print(1)";
       EvCallback write_failed_response] ∧
  launched (trace (sample_run loops_forever "python" "print(1)" ∅).2) = false.
Proof.
  destruct (write_failure_reported false "/app" sample_bytes
              "2024-05-01T10:00:00.000Z" loops_forever "python" "print(1)" ∅
              (FsError ENOENT "/app/temp/s_01abff00107f800a.py"))
    as (_ & Ht & _ & Hl & _); [vm_compute; reflexivity ..|].
  exact (conj Ht Hl).
Defined.

(** C7 fails as stated: with no working directory the write throws, and
    the message delivered is not the one of the specification. *)
Lemma write_failure_counterexample :
  (writeFileSync false (sourcePath false "/app" sample_bytes "python")
     "print(1)" (start ∅)).1
    = Throw (FsError ENOENT "/app/temp/s_01abff00107f800a.py") ∧
  kind_of <$> delivered (trace (sample_run loops_forever "python" "print(1)"
                                  ∅).2)
    = [Some (ConfigurationError "Server failed to write file.")] ∧
  kind_of <$> delivered (trace (sample_run loops_forever "python" "print(1)"
                                  ∅).2)
    ≠ [Some (ConfigurationError "failed to write source")].
Proof. repeat split; vm_compute; (reflexivity || discriminate). Qed.




(** * Beyond the claims *)

(** ** Run identities and the names derived from them *)

Lemma hex_value_digit n : (n < 16)%N → hex_value (hex_digit n) = n.
Proof.
  intros H.
  assert (n = 0 ∨ n = 1 ∨ n = 2 ∨ n = 3 ∨ n = 4 ∨ n = 5 ∨ n = 6 ∨ n = 7 ∨
          n = 8 ∨ n = 9 ∨ n = 10 ∨ n = 11 ∨ n = 12 ∨ n = 13 ∨ n = 14 ∨
          n = 15)%N as Hn by lia.
  repeat (destruct Hn as [-> | Hn]; [reflexivity|]). by subst.
Qed.

Lemma hex_of_byte_inj b b' : hex_of_byte b = hex_of_byte b' → b = b'.
Proof.
  unfold hex_of_byte. intros [= Hhi Hlo].
  pose proof (Byte.to_N_bounded b) as Hb.
  pose proof (Byte.to_N_bounded b') as Hb'.
  apply (f_equal hex_value) in Hhi, Hlo.
  rewrite !hex_value_digit in Hhi, Hlo
    by (try apply N.mod_upper_bound; try apply N.Div0.div_lt_upper_bound; lia).
  assert (Byte.to_N b = Byte.to_N b') as Hn.
  { rewrite (N.div_mod (Byte.to_N b) 16), (N.div_mod (Byte.to_N b') 16) by lia.
    by rewrite Hhi, Hlo. }
  apply (f_equal Byte.of_N) in Hn. rewrite !Byte.of_to_N in Hn. congruence.
Qed.

(** The hexadecimal form of a byte sequence determines the sequence. *)
Lemma toString_hex_inj bs bs' : toString_hex bs = toString_hex bs' → bs = bs'.
Proof.
  revert bs'. induction bs as [|b bs IH]; intros [|b' bs'] H.
  - reflexivity.
  - discriminate.
  - discriminate.
  - cbn [toString_hex] in H. unfold hex_of_byte in H.
    cbn [String.append] in H. injection H as Hhi Hlo Hrest.
    f_equal; [|by apply IH].
    apply hex_of_byte_inj. unfold hex_of_byte. by rewrite Hhi, Hlo.
Qed.

Lemma length_append s t :
  String.length (s +:+ t) = String.length s + String.length t.
Proof.
  induction s as [|c s IH]; simpl; [done | by rewrite IH].
Qed.

Lemma append_inj_r s s' t : s +:+ t = s' +:+ t → s = s'.
Proof.
  revert s'. induction s as [|c s IH]; intros [|c' s'] H; simpl in H.
  - reflexivity.
  - apply (f_equal String.length) in H.
    change (String.length t = S (String.length (s' +:+ t))) in H.
    rewrite length_append in H. lia.
  - apply (f_equal String.length) in H.
    change (S (String.length (s +:+ t)) = String.length t) in H.
    rewrite length_append in H. lia.
  - injection H as -> H. f_equal. by apply IH.
Qed.

Lemma path_join_inj win32 dir a b :
  path_join win32 dir a = path_join win32 dir b → a = b.
Proof.
  unfold path_join. induction dir as [|c d IH]; cbn.
  - unfold path_sep. destruct win32; cbn; intros H; by injection H.
  - intros H. injection H as H. auto.
Qed.

Section Names.

Variable win32 : bool.
Variable dirname_ : string.

(** X1.  Two runs of a registered language get the same source path
    exactly when the language has the fixed file name (java) or the two
    runs drew the same random bytes. *)
Theorem source_paths_collide_iff (rb rb' : nat → list byte) lang r :
  LANGUAGES_get win32 lang = VRecipe r →
  sourcePath win32 dirname_ rb lang = sourcePath win32 dirname_ rb' lang
  ↔ filename r = Some "Main.java" ∨ rb 8 = rb' 8.
Proof.
  intros E. unfold sourcePath, fileName_of, runId. rewrite E. cbn [get_filename get_ext template].
  destruct (own_property_shape _ _ _ (LANGUAGES_get_recipe _ _ _ E))
    as [_ [Hf | Hf]]; rewrite Hf; cbn [js_or].
  - split.
    + intros H. right. apply path_join_inj in H. injection H as H.
      change (toString_hex (rb 8) +:+ ext r = toString_hex (rb' 8) +:+ ext r)
        in H.
      by apply append_inj_r, toString_hex_inj in H.
    + intros [? | ->]; [discriminate | reflexivity].
  - split; [by left | reflexivity].
Qed.

(** X2.  The binary paths of two runs coincide exactly when the two runs
    drew the same random bytes. *)
Theorem binPath_inj (rb rb' : nat → list byte) :
  binPath win32 dirname_ rb = binPath win32 dirname_ rb' ↔ rb 8 = rb' 8.
Proof.
  unfold binPath, runId. split; [|by intros ->].
  intros H. apply path_join_inj in H. injection H as H.
  by apply toString_hex_inj.
Qed.

End Names.

Lemma source_paths_collide_iff_witness :
  sourcePath false "/app" sample_bytes "python"
    ≠ sourcePath false "/app" other_bytes "python" ∧
  sourcePath false "/app" sample_bytes "java"
    = sourcePath false "/app" other_bytes "java".
Proof.
  split.
  - intros H.
    apply (source_paths_collide_iff false "/app" sample_bytes other_bytes
             "python" (python false) eq_refl) in H.
    destruct H as [H | H]; vm_compute in H; discriminate.
  - apply (source_paths_collide_iff false "/app" sample_bytes other_bytes
             "java" java eq_refl). by left.
Defined.

(** ** More on guarded removals *)

Lemma commands_app t u : commands (t ++ u) = commands t ++ commands u.
Proof.
  induction t as [|[] t IH]; cbn; rewrite ?IH; reflexivity.
Qed.

Lemma sweep_trace_commands targets fs : commands (sweep_trace targets fs) = [].
Proof.
  revert fs. induction targets as [|p rest IH]; intros fs; cbn; [done|].
  destruct (fs !! p) as [[d|]|]; cbn; auto.
Qed.

(** What a sweep changes: it removes regular files among its targets. *)
Lemma sweep_removed targets fs p :
  sweep targets fs !! p = fs !! p ∨
  (sweep targets fs !! p = None ∧ (∃ d, fs !! p = Some (File d)) ∧
   p ∈ targets).
Proof.
  revert fs. induction targets as [|q rest IH]; intros fs; cbn; [by left|].
  destruct (fs !! q) as [[d|]|] eqn:E; [|by left|].
  - destruct (IH (delete q fs)) as [H | (H & [d' Hd] & Hin)].
    + rewrite H. destruct (decide (q = p)) as [-> | Hne].
      * right. rewrite lookup_delete_eq. split; [done|].
        split; [by exists d | by left].
      * left. by apply lookup_delete_ne.
    + right. split; [done|]. split; [|by right].
      exists d'. destruct (decide (q = p)) as [-> | Hne].
      * by rewrite lookup_delete_eq in Hd.
      * by rewrite lookup_delete_ne in Hd.
  - destruct (IH fs) as [H | (H & Hd & Hin)]; [by left|].
    right. split; [done|]. split; [done | by right].
Qed.

(** A second sweep over the same targets finds nothing more to do. *)
Lemma sweep_idem targets fs : sweep targets (sweep targets fs) = sweep targets fs.
Proof.
  revert fs. induction targets as [|q rest IH]; intros fs; cbn; [done|].
  destruct (fs !! q) as [[d|]|] eqn:E.
  - rewrite sweep_lookup_None by apply lookup_delete_eq. apply IH.
  - by rewrite E.
  - rewrite sweep_lookup_None by done. apply IH.
Qed.

(** X8.  [cleanup] never throws, whatever the files, and changes nothing
    but this: regular files at some of its four paths are gone.  It
    creates nothing, alters no content and removes no directory. *)
Theorem cleanup_only_removes win32 filePath rid e w :
  (cleanup win32 filePath rid e w).1 = Normal () ∧
  ∀ p,
    files (cleanup win32 filePath rid e w).2 !! p = files w !! p ∨
    (files (cleanup win32 filePath rid e w).2 !! p = None ∧
     (∃ d, files w !! p = Some (File d)) ∧
     p ∈ [ filePath;
           path_join win32 (path_dirname win32 filePath) ("bin_" +:+ rid);
           path_join win32 (path_dirname win32 filePath) ("bin_" +:+ rid)
             +:+ ".exe";
           path_join win32 (path_dirname win32 filePath) "Main.class" ]).
Proof.
  rewrite cleanup_eq. cbn [fst snd files]. split; [done|].
  intros p. apply sweep_removed.
Qed.

(** X9.  Running [cleanup] a second time with the same arguments leaves
    the files as the first run left them. *)
Theorem cleanup_idempotent win32 filePath rid e w :
  files (cleanup win32 filePath rid e (cleanup win32 filePath rid e w).2).2
    = files (cleanup win32 filePath rid e w).2.
Proof. rewrite !cleanup_eq. cbn [snd files]. apply sweep_idem. Qed.

(** ** More on whole runs *)

Section MoreRuns.

Variable win32 : bool.
Variable dirname_ : string.
Variable randomBytes : nat → list byte.
Variable now : string.
Variable child : string → gmap string node → child_result.

Local Abbreviation run := (executeCode win32 dirname_ randomBytes now child).
Local Abbreviation TEMP := (TEMP_DIR win32 dirname_).
Local Abbreviation rid := (runId randomBytes).
Local Abbreviation src := (sourcePath win32 dirname_ randomBytes).
Local Abbreviation bin := (binPath win32 dirname_ randomBytes).
Local Abbreviation targets := (artifacts win32 dirname_ randomBytes).
Local Abbreviation write := (writeFileSync win32).

(** The four ways a call can go. *)
Lemma run_shapes lang code fs :
  (LANGUAGES_get win32 lang = VUndefined ∧
   run lang code (start fs)
     = (Normal (), World fs [EvCallback (unsupported_response lang)])) ∨
  (truthy (LANGUAGES_get win32 lang) = true ∧
   (∃ e, (write (src lang) code (start fs)).1 = Throw e) ∧
   run lang code (start fs)
     = (Normal (),
        World fs [EvWriteFile (src lang) code;
                  EvCallback write_failed_response])) ∨
  (∃ r, LANGUAGES_get win32 lang = VRecipe r ∧
        (write (src lang) code (start fs)).1 = Normal () ∧
        let command := cmd r (src lang) TEMP ("bin_" +:+ rid) in
        let x := child command (<[src lang := File code]> fs) in
        run lang code (start fs)
          = (Normal (),
             World (sweep (targets lang) (child_files x))
               ([ EvWriteFile (src lang) code;
                  EvConsoleLog ("[" +:+ now +:+ "] EXEC " +:+ lang +:+ ": "
                                +:+ rid);
                  EvExec command TIMEOUT_MS;
                  EvExit x ]
                ++ sweep_trace (targets lang) (child_files x)
                ++ [ EvCallback (answer x) ]))) ∨
  (∃ k, LANGUAGES_get win32 lang = VBuiltin k ∧
        (write (src lang) code (start fs)).1 = Normal () ∧
        run lang code (start fs)
          = (Throw (TypeError "config.cmd is not a function"),
             World (<[src lang := File code]> fs)
               [EvWriteFile (src lang) code])).
Proof.
  destruct (LANGUAGES_get win32 lang) as [r | k |] eqn:E.
  - destruct (writeFileSync_cases win32 (src lang) code fs) as [Hw | [e Hw]];
      apply (f_equal fst) in Hw; cbn [fst] in Hw.
    + right; right; left. exists r. split; [done|]. split; [done|].
      by apply run_recipe.
    + right; left. split; [done|]. split; [by exists e|].
      apply (run_write_failed _ _ _ _ _ _ _ _ e); [by rewrite E | done].
  - destruct (writeFileSync_cases win32 (src lang) code fs) as [Hw | [e Hw]];
      apply (f_equal fst) in Hw; cbn [fst] in Hw.
    + right; right; right. exists k. split; [done|]. split; [done|].
      by apply (run_builtin _ _ _ _ _ _ _ _ k).
    + right; left. split; [done|]. split; [by exists e|].
      apply (run_write_failed _ _ _ _ _ _ _ _ e); [by rewrite E | done].
  - left. split; [done|]. by apply run_undefined.
Qed.

(** X3.  For every language identifier, registered or not, the directory
    [cleanup] derives from the source path with [path.dirname] is the
    working directory: the three other paths it goes through are
    [bin_<runId>], [bin_<runId>.exe] and [Main.class] directly in
    [TEMP_DIR]. *)
Theorem cleanup_directory lang :
  path_dirname win32 (src lang) = TEMP ∧
  [ src lang;
    path_join win32 (path_dirname win32 (src lang)) ("bin_" +:+ rid);
    path_join win32 (path_dirname win32 (src lang)) ("bin_" +:+ rid) +:+ ".exe";
    path_join win32 (path_dirname win32 (src lang)) "Main.class" ]
  = [ src lang; path_join win32 TEMP ("bin_" +:+ rid);
      path_join win32 TEMP ("bin_" +:+ rid) +:+ ".exe";
      path_join win32 TEMP "Main.class" ].
Proof. by rewrite dirname_sourcePath. Qed.


(** The command of a run, when it starts a process. *)
Lemma run_commands lang code fs c :
  commands (trace (run lang code (start fs)).2) = [c] →
  ∃ r, LANGUAGES_get win32 lang = VRecipe r ∧
       c = cmd r (src lang) TEMP ("bin_" +:+ rid) ∧
       exits (trace (run lang code (start fs)).2)
         = [child c (<[src lang := File code]> fs)].
Proof.
  intros Hc.
  destruct (run_shapes lang code fs)
    as [[E H] | [(Ht & [e Hw] & H) | [(r & E & Hw & H) | (k & E & Hw & H)]]];
    cbv zeta in H; rewrite H in Hc |- *; cbn [snd trace] in Hc |- *;
    try discriminate.
  rewrite !commands_app, sweep_trace_commands in Hc.
  rewrite !exits_app, sweep_trace_exits.
  cbn in Hc |- *. injection Hc as <-. by exists r.
Qed.

(** X5.  No call starts more than one process or delivers more than one
    result; a process is started only for a language with a recipe, after
    the submitted text was stored at the source path, and it is started
    on the files that write left. *)
Theorem at_most_one_process lang code fs :
  length (commands (trace (run lang code (start fs)).2)) ≤ 1 ∧
  length (delivered (trace (run lang code (start fs)).2)) ≤ 1 ∧
  ∀ c, commands (trace (run lang code (start fs)).2) = [c] →
       ∃ r, LANGUAGES_get win32 lang = VRecipe r ∧
            c = cmd r (src lang) TEMP ("bin_" +:+ rid) ∧
            exits (trace (run lang code (start fs)).2)
              = [child c (<[src lang := File code]> fs)].
Proof.
  split; [|split; [|apply run_commands]];
    destruct (run_shapes lang code fs)
      as [[E ->] | [(Ht & [e Hw] & ->) | [(r & E & Hw & H) | (k & E & Hw & ->)]]];
    try (cbn; lia);
    cbv zeta in H; rewrite H; cbn [snd trace];
    rewrite ?commands_app, ?delivered_app, ?sweep_trace_commands,
      ?sweep_trace_delivered; cbn; lia.
Qed.

(** X6.  The command line of a run is fixed by the language identifier
    and the run identity: the submitted text and the files present have
    no part in it. *)
Theorem command_ignores_code lang code code' fs fs' c c' :
  commands (trace (run lang code (start fs)).2) = [c] →
  commands (trace (run lang code' (start fs')).2) = [c'] →
  c = c'.
Proof.
  intros H H'.
  destruct (run_commands _ _ _ _ H) as (r & E & -> & _).
  destruct (run_commands _ _ _ _ H') as (r' & E' & -> & _).
  congruence.
Qed.


End MoreRuns.

(** X7.  The result delivered after a process depends on [err], [stdout]
    and [stderr] alone: two runs whose processes hand back the same three
    values deliver the same result, whatever the language, the text, the
    files and what [cleanup] could or could not remove. *)
Theorem result_ignores_files win32 dirname_ randomBytes now child
    win32' dirname_' randomBytes' now' child' lang code fs lang' code' fs' x x' :
  exits (trace (executeCode win32 dirname_ randomBytes now child lang code
                  (start fs)).2) = [x] →
  exits (trace (executeCode win32' dirname_' randomBytes' now' child' lang'
                  code' (start fs')).2) = [x'] →
  child_err x = child_err x' →
  child_stdout x = child_stdout x' →
  child_stderr x = child_stderr x' →
  delivered (trace (executeCode win32 dirname_ randomBytes now child lang code
                      (start fs)).2)
  = delivered (trace (executeCode win32' dirname_' randomBytes' now' child'
                        lang' code' (start fs')).2).
Proof.
  intros Hx Hx' He Ho Hs.
  rewrite (run_delivers _ _ _ _ _ _ _ _ _ Hx),
    (run_delivers _ _ _ _ _ _ _ _ _ Hx').
  unfold answer. by rewrite He, Ho, Hs.
Qed.

Lemma command_ignores_code_witness :
  hd "" (commands (trace (sample_run loops_forever "python" "while True: pass"
                            sample_fs).2))
  = hd "" (commands (trace (sample_run loops_forever "python" "print(1)"
                              java_in_flight).2)).
Proof.
  refine (command_ignores_code false "/app" sample_bytes
            "2024-05-01T10:00:00.000Z" loops_forever "python"
            "while True: pass" "print(1)" sample_fs java_in_flight _ _ _ _);
    vm_compute; reflexivity.
Defined.

Lemma result_ignores_files_witness :
  delivered (trace (sample_run swaps_source_cpp "cpp" "int main(){}"
                      sample_fs).2)
  = delivered (trace (sample_run hangs_quietly "python" "while True: pass"
                        java_in_flight).2).
Proof.
  refine (result_ignores_files false "/app" sample_bytes
            "2024-05-01T10:00:00.000Z" swaps_source_cpp
            false "/app" sample_bytes "2024-05-01T10:00:00.000Z" hangs_quietly
            "cpp" "int main(){}" sample_fs
            "python" "while True: pass" java_in_flight
            (swaps_source_cpp ""
               (<["/app/temp/s_01abff00107f800a.cpp" := File "int main(){}"]>
                  sample_fs))
            (hangs_quietly ""
               (<["/app/temp/s_01abff00107f800a.py"
                    := File "while True: pass"]> java_in_flight))
            _ _ _ _ _);
    vm_compute; reflexivity.
Defined.


(** ** Paths taken from a request *)

Lemma append_cons c s t : String c s +:+ t = String c (s +:+ t).
Proof. reflexivity. Qed.

Lemma append_nil_r s : s +:+ "" = s.
Proof.
  induction s as [|c s IH]; [done|]. by rewrite append_cons, IH.
Qed.

Lemma append_assoc s t u : (s +:+ t) +:+ u = s +:+ t +:+ u.
Proof.
  induction s as [|c s IH]; [done|]. by rewrite !append_cons, IH.
Qed.

Lemma prefix_cons a s b t :
  String.prefix (String a s) (String b t)
    = if ascii_dec a b then String.prefix s t else false.
Proof. reflexivity. Qed.

Lemma prefix_append s t : String.prefix s (s +:+ t) = true.
Proof.
  induction s as [|c s IH]; [by destruct t|].
  rewrite append_cons, prefix_cons.
  destruct (ascii_dec c c); [done | congruence].
Qed.

Lemma prefix_slash_false d c t :
  c ≠ "/"%char → String.prefix (d +:+ "/") (d +:+ String c t) = false.
Proof.
  intros Hc. induction d as [|a d IH].
  - change (String.prefix (String "/" "") (String c t) = false).
    rewrite prefix_cons. destruct (ascii_dec "/" c); [congruence | done].
  - rewrite !append_cons, prefix_cons.
    destruct (ascii_dec a a); [done | congruence].
Qed.

Lemma segments_slash_free s : slash_free s = true → segments s = [s].
Proof.
  induction s as [|c s IH]; simpl; [done|].
  intros H. apply andb_prop in H as [Hc Hs].
  destruct (Ascii.eqb c "/"); [done|]. by rewrite (IH Hs).
Qed.

Lemma segments_append_slash s t :
  slash_free s = true → segments (s +:+ "/" +:+ t) = s :: segments t.
Proof.
  induction s as [|c s IH]; simpl; [done|].
  intros H. apply andb_prop in H as [Hc Hs].
  destruct (Ascii.eqb c "/"); [done|]. by rewrite (IH Hs).
Qed.

Lemma segments_join parts :
  parts ≠ [] → Forall (λ p, slash_free p = true) parts →
  segments (join_slash parts) = parts.
Proof.
  induction parts as [|p [|q rest] IH]; intros Hne Hall; [done| |].
  - apply Forall_cons in Hall as [Hp _]. by apply segments_slash_free.
  - apply Forall_cons in Hall as [Hp Hrest].
    change (join_slash (p :: q :: rest))
      with (p +:+ "/" +:+ join_slash (q :: rest)).
    rewrite segments_append_slash by done. by rewrite IH.
Qed.

Lemma join_slash_cons p parts :
  parts ≠ [] → join_slash (p :: parts) = p +:+ "/" +:+ join_slash parts.
Proof. by destruct parts. Qed.

Lemma join_slash_app ps qs :
  ps ≠ [] → qs ≠ [] →
  join_slash (ps ++ qs) = join_slash ps +:+ "/" +:+ join_slash qs.
Proof.
  intros Hp Hq. induction ps as [|p [|p' ps] IH]; [done| |].
  - simpl app. by rewrite join_slash_cons.
  - change ((p :: p' :: ps) ++ qs) with (p :: (p' :: ps) ++ qs).
    rewrite !join_slash_cons by done. rewrite IH by done.
    by rewrite !append_assoc.
Qed.

Lemma ordinary_slash_free seg : ordinary seg = true → slash_free seg = true.
Proof. unfold ordinary. intros H. by apply andb_prop in H as [_ H]. Qed.

Lemma ordinary_step a kept seg :
  ordinary seg = true → norm_step a kept seg = seg :: kept.
Proof.
  unfold ordinary, norm_step. intros H.
  apply andb_prop in H as [H _]. apply andb_prop in H as [H H3].
  apply andb_prop in H as [H1 H2].
  destruct (String.eqb seg ""); [done|]. destruct (String.eqb seg "."); [done|].
  by destruct (String.eqb seg "..").
Qed.

(** [normalize] keeps a run of ordinary parts as it is. *)
Lemma fold_norm_ordinary a segs kept :
  Forall (λ p, ordinary p = true) segs →
  fold_left (norm_step a) segs kept = rev segs ++ kept.
Proof.
  revert kept. induction segs as [|seg segs IH]; intros kept H; [done|].
  apply Forall_cons in H as [Hs Hall]. simpl.
  rewrite ordinary_step by done. rewrite IH by done.
  by rewrite <- app_assoc.
Qed.

Lemma ends_with_slash_cons c s :
  s ≠ "" → ends_with_slash (String c s) = ends_with_slash s.
Proof. by destruct s. Qed.

Lemma ends_with_slash_append s t :
  t ≠ "" → ends_with_slash (s +:+ t) = ends_with_slash t.
Proof.
  intros Ht. induction s as [|c s IH]; [done|].
  rewrite append_cons, ends_with_slash_cons; [done|].
  destruct s; [done | by rewrite append_cons].
Qed.

Lemma slash_free_no_trailing s :
  slash_free s = true → ends_with_slash s = false.
Proof.
  induction s as [|c s IH]; [done|]. simpl slash_free.
  intros H. apply andb_prop in H as [Hc Hs].
  destruct s as [|c' s].
  - change (Ascii.eqb c "/" = false). by destruct (Ascii.eqb c "/").
  - rewrite ends_with_slash_cons by done. by apply IH.
Qed.

Lemma ordinary_nonempty seg : ordinary seg = true → seg ≠ "".
Proof. by intros H ->. Qed.

Lemma join_slash_no_trailing parts :
  parts ≠ [] → Forall (λ p, ordinary p = true) parts →
  ends_with_slash (join_slash parts) = false.
Proof.
  induction parts as [|p [|q rest] IH]; intros Hne Hall; [done| |].
  - apply Forall_cons in Hall as [Hp _].
    by apply slash_free_no_trailing, ordinary_slash_free.
  - apply Forall_cons in Hall as [Hp Hrest].
    rewrite join_slash_cons by done.
    rewrite !ends_with_slash_append; [by apply IH | |].
    + apply Forall_cons in Hrest as [Hq _].
      pose proof (ordinary_nonempty _ Hq). destruct rest; [done|].
      rewrite join_slash_cons by done. by destruct q.
    + done.
Qed.

Lemma join_slash_nonempty parts :
  parts ≠ [] → Forall (λ p, ordinary p = true) parts → join_slash parts ≠ "".
Proof.
  destruct parts as [|p rest]; [done|]. intros _ H.
  apply Forall_cons in H as [Hp _]. pose proof (ordinary_nonempty _ Hp).
  destruct rest; [done|]. rewrite join_slash_cons by done. by destruct p.
Qed.

Lemma append_nonempty_r s t : t ≠ "" → s +:+ t ≠ "".
Proof. destruct s; [done | by rewrite append_cons]. Qed.

(** [normalize] on an absolute path, given what its parts reduce to. *)
Lemma posix_normalize_abs raw kept :
  Forall (λ p, slash_free p = true) raw →
  join_slash raw ≠ "" →
  ends_with_slash (join_slash raw) = false →
  fold_left (norm_step false) raw [] = rev kept →
  join_slash kept ≠ "" →
  posix_normalize (abs_path raw) = abs_path kept.
Proof.
  intros Hraw Hne Hend Hfold Hkept.
  assert (Hr : raw ≠ []) by (by intros ->).
  unfold abs_path. change ("/" +:+ join_slash raw) with (String "/" (join_slash raw)).
  unfold posix_normalize.
  change (Ascii.eqb "/" "/") with true. cbn [negb].
  rewrite ends_with_slash_cons, Hend by done.
  change (segments (String "/" (join_slash raw)))
    with (EmptyString :: segments (join_slash raw)).
  rewrite segments_join by done.
  change (fold_left (norm_step false) ("" :: raw) [])
    with (fold_left (norm_step false) raw []).
  rewrite Hfold, rev_involutive.
  destruct (join_slash kept) as [|c body] eqn:E; [done|].
  by rewrite append_nil_r.
Qed.

Lemma posix_join_abs dparts fparts kept :
  dparts ≠ [] → fparts ≠ [] →
  Forall (λ p, slash_free p = true) (dparts ++ fparts) →
  join_slash fparts ≠ "" →
  ends_with_slash (join_slash fparts) = false →
  fold_left (norm_step false) (dparts ++ fparts) [] = rev kept →
  join_slash kept ≠ "" →
  posix_join (abs_path dparts) (join_slash fparts) = abs_path kept.
Proof.
  intros Hd Hf Hall Hne Hend Hfold Hkept.
  unfold posix_join.
  change (abs_path dparts) with (String "/" (join_slash dparts)).
  destruct (join_slash fparts) as [|c f] eqn:E; [done|].
  rewrite <- E.
  change (String "/" (join_slash dparts) +:+ "/" +:+ join_slash fparts)
    with ("/" +:+ (join_slash dparts +:+ "/" +:+ join_slash fparts)).
  rewrite <- join_slash_app by done.
  apply (posix_normalize_abs (dparts ++ fparts) kept); try done.
  - rewrite join_slash_app by done. apply append_nonempty_r.
    by rewrite append_cons.
  - rewrite join_slash_app by done.
    rewrite !ends_with_slash_append;
      first [by rewrite E | by rewrite append_cons].
Qed.

Lemma Forall_ordinary_slash_free parts :
  Forall (λ p, ordinary p = true) parts →
  Forall (λ p, slash_free p = true) parts.
Proof.
  intros H. eapply Forall_impl; [exact H|]. intros p. apply ordinary_slash_free.
Qed.

Lemma slash_free_append s t :
  slash_free (s +:+ t) = slash_free s && slash_free t.
Proof.
  induction s as [|c s IH]; [done|].
  rewrite append_cons. simpl. rewrite IH. by rewrite andb_assoc.
Qed.

Lemma join_slash_last parent b s n :
  join_slash (parent ++ [b +:+ s; n])
    = join_slash (parent ++ [b]) +:+ s +:+ "/" +:+ n.
Proof.
  induction parent as [|p parent IH].
  - simpl app. rewrite join_slash_cons by done.
    change (join_slash [n]) with n. change (join_slash [b]) with b.
    by rewrite append_assoc.
  - change ((p :: parent) ++ [b +:+ s; n]) with (p :: parent ++ [b +:+ s; n]).
    change ((p :: parent) ++ [b]) with (p :: parent ++ [b]).
    rewrite !join_slash_cons by (by destruct parent).
    rewrite IH. by rewrite !append_assoc.
Qed.

(** [extname] yields the empty string or a string that starts with a dot. *)
Lemma from_last_dot_shape s e :
  from_last_dot s = Some e → ∃ t, e = String "." t.
Proof.
  induction s as [|c s IH]; [done|]. simpl.
  destruct (from_last_dot s) as [e'|]; [intros [= <-]; by apply IH|].
  destruct (Ascii.eqb_spec c "."); [|done]. intros [= <-]. subst. by eexists.
Qed.

Lemma posix_extname_shape p :
  posix_extname p = "" ∨ ∃ t, posix_extname p = String "." t.
Proof.
  unfold posix_extname. destruct (posix_basename p) as [|c r]; [by left|].
  destruct (String.eqb _ ".."); [by left|].
  destruct (from_last_dot r) as [e|] eqn:E; [|by left].
  right. by apply from_last_dot_shape in E.
Qed.

(** The content type chosen for a file is a string, one of the five of
    the table or [text/plain]. *)
Lemma content_type_text p :
  ∃ t, content_type (posix_extname p) = HText t ∧
       (t = "text/plain" ∨ t ∈ mimeTypes.*2).
Proof.
  unfold content_type.
  destruct (posix_extname_shape p) as [-> | [t ->]].
  - exists "text/plain". by split; [|left].
  - unfold mimeTypes. cbn [own_mime].
    repeat match goal with
           | |- context [ String.eqb (String "." t) ?k ] =>
               destruct (String.eqb (String "." t) k);
               [eexists; split; [reflexivity|]; right; cbn;
                repeat ((by left) || right) |]
           end.
    exists "text/plain". by split; [|left].
Qed.

(** ** The request handler *)

Section Serving.

Variable dirname_ : string.
Variable randomBytes : nat → list byte.
Variable now : string.
Variable child : string → gmap string node → child_result.
Variable JSON_parse : string → option params.

Local Abbreviation handle :=
  (handler dirname_ randomBytes now child JSON_parse).
Local Abbreviation run := (executeCode false dirname_ randomBytes now child).
Local Abbreviation src := (sourcePath false dirname_ randomBytes).

(** What the body of a POST to [/execute] leads to. *)
Lemma on_end_cases body fs :
  on_end dirname_ randomBytes now child JSON_parse body fs
    = ([invalid_request], start fs) ∨
  ∃ lang code,
    JSON_parse body = Some (Params (Some lang) (Some code)) ∧
    lang ≠ "" ∧ code ≠ "" ∧
    ((∃ r k, on_end dirname_ randomBytes now child JSON_parse body fs
               = ([json_reply 200 r], (run lang code (start fs)).2) ∧
             (run lang code (start fs)).1 = Normal () ∧
             delivered (trace (run lang code (start fs)).2) = [r] ∧
             kind_of r = Some k) ∨
     (on_end dirname_ randomBytes now child JSON_parse body fs
        = ([invalid_request], (run lang code (start fs)).2) ∧
      existsb (String.eqb lang) Object_prototype_keys = true ∧
      (writeFileSync false (src lang) code (start fs)).1 = Normal () ∧
      delivered (trace (run lang code (start fs)).2) = [])).
Proof.
  unfold on_end. destruct (JSON_parse body) as [[l c]|]; [|by left].
  destruct l as [[|a l]|]; [by left | | by left].
  destruct c as [[|b c]|]; [by left | | by left].
  right. exists (String a l), (String b c). split; [done|].
  split; [done|]. split; [done|].
  cbn [param_language param_code falsy orb from_option id].
  destruct (run_shapes false dirname_ randomBytes now child
              (String a l) (String b c) fs)
    as [[E ->] | [(Ht & [e Hw] & ->) | [(r & E & Hw & H) | (k & E & Hw & ->)]]].
  - left. by eexists _, _.
  - left. by eexists _, _.
  - left. cbv zeta in H. rewrite H. cbn [fst snd trace].
    rewrite !delivered_app, sweep_trace_delivered. cbn [delivered app].
    destruct (answer_kind
                (child (cmd r (src (String a l))
                          (TEMP_DIR false dirname_)
                          ("bin_" +:+ runId randomBytes))
                   (<[src (String a l) := File (String b c)]> fs)))
      as [k Hk].
    eexists _, k. by repeat split.
  - right. split; [done|]. split; [|done].
    revert E. unfold LANGUAGES_get. destruct (own_property _ _); [done|].
    by destruct (existsb _ _).
Qed.


(** Every call of the dispatcher leaves at least one event. *)
Lemma run_trace_nonempty lang code fs : trace (run lang code (start fs)).2 ≠ [].
Proof.
  destruct (run_shapes false dirname_ randomBytes now child lang code fs)
    as [[E H] | [(Ht & [e Hw] & H) | [(r & E & Hw & H) | (k & E & Hw & H)]]];
    cbv zeta in H; by rewrite H.
Qed.

(** Every call of the dispatcher leaves an event that is not a read. *)
Lemma run_dispatched lang code fs :
  dispatched (trace (run lang code (start fs)).2) = true.
Proof.
  destruct (run_shapes false dirname_ randomBytes now child lang code fs)
    as [[E H] | [(Ht & [e Hw] & H) | [(r & E & Hw & H) | (k & E & Hw & H)]]];
    cbv zeta in H; by rewrite H.
Qed.

(** X12. The handler reaches the dispatcher exactly for a POST to
    [/execute] whose body parses and has a non-empty language and a
    non-empty text: exactly then the trace holds an event other than a
    read.  Every other request (another method, another path such as
    [/execute] with a query string, an OPTIONS request, a body that does
    not parse or lacks a field) writes and removes nothing, starts no
    process and leaves the files as they are; its only call on the file
    system is the one [fs.readFile] of the static branch, made when the
    joined path passes the guard, and not made for an OPTIONS request or a
    POST to [/execute]. *)
Theorem dispatcher_reached_iff req fs :
  (dispatched (trace (handle req fs).2) = true ↔
   req_method req = "POST" ∧ req_url req = "/execute" ∧
   ∃ lang code,
     JSON_parse (String.concat "" (req_chunks req))
       = Some (Params (Some lang) (Some code)) ∧
     lang ≠ "" ∧ code ≠ "") ∧
  (dispatched (trace (handle req fs).2) = false →
   files (handle req fs).2 = fs ∧
   (trace (handle req fs).2 = [] ∨
    ∃ p, trace (handle req fs).2 = [EvReadFile p] ∧
         String.prefix dirname_ p = true ∧
         req_method req ≠ "OPTIONS" ∧
         ¬ (req_method req = "POST" ∧ req_url req = "/execute"))).
Proof.
  unfold handler, on_end.
  destruct (String.eqb_spec (req_method req) "OPTIONS") as [Ho | Ho].
  { split; [|intros _; split; [done | by left]].
    split; [done|]. intros (Hm & _). congruence. }
  assert (Hstatic : ¬ (req_method req = "POST" ∧ req_url req = "/execute") →
    (dispatched (trace (serve_static dirname_ (req_url req) fs).2) = true ↔
     req_method req = "POST" ∧ req_url req = "/execute" ∧
     ∃ lang code,
       JSON_parse (String.concat "" (req_chunks req))
         = Some (Params (Some lang) (Some code)) ∧
       lang ≠ "" ∧ code ≠ "") ∧
    (dispatched (trace (serve_static dirname_ (req_url req) fs).2) = false →
     files (serve_static dirname_ (req_url req) fs).2 = fs ∧
     (trace (serve_static dirname_ (req_url req) fs).2 = [] ∨
      ∃ p, trace (serve_static dirname_ (req_url req) fs).2 = [EvReadFile p] ∧
           String.prefix dirname_ p = true ∧
           req_method req ≠ "OPTIONS" ∧
           ¬ (req_method req = "POST" ∧ req_url req = "/execute")))).
  { intros Hn. unfold serve_static.
    destruct (String.prefix dirname_ _) eqn:Hp; cbn [negb snd trace files].
    - split; [split; [done | intros (? & ? & _); by destruct Hn]|].
      intros _. split; [done|]. right. by eexists.
    - split; [split; [done | intros (? & ? & _); by destruct Hn]|].
      intros _. split; [done | by left]. }
  destruct (String.eqb_spec (req_method req) "POST") as [Hm | Hm];
    [|cbn [andb snd]; apply Hstatic; by intros (? & _)].
  destruct (String.eqb_spec (req_url req) "/execute") as [Hu | Hu];
    [|cbn [andb snd]; apply Hstatic; by intros (_ & ?)].
  cbn [andb].
  destruct (JSON_parse (String.concat "" (req_chunks req))) as [[l c]|];
    [|split; [split; [done | by intros (_ & _ & ? & ? & ? & _)]
             | intros _; split; [done | by left]]].
  destruct l as [[|a l]|];
    [split; [split; [done | intros (_ & _ & ? & ? & [=] & ? & _); by subst]
            | intros _; split; [done | by left]]
    | | split; [split; [done | by intros (_ & _ & ? & ? & [=] & _)]
               | intros _; split; [done | by left]]].
  destruct c as [[|b c]|];
    [split; [split; [done | intros (_ & _ & ? & ? & [=] & _ & ?); by subst]
            | intros _; split; [done | by left]]
    | | split; [split; [done | by intros (_ & _ & ? & ? & [=] & _)]
               | intros _; split; [done | by left]]].
  cbn [param_language param_code falsy orb from_option id].
  pose proof (run_dispatched (String a l) (String b c) fs) as Hd.
  destruct (run (String a l) (String b c) (start fs)) as [[[]|e] w];
    cbn [snd] in *; (split; [|intros Hf; congruence]);
    (split; [intros _; repeat split; try done; by eexists _, _ | done]).
Qed.


(** X14.  When the language of a request names a member of
    [Object.prototype] and the working directory accepts the write, the
    request is answered with 400 [Invalid request], yet the submitted
    text has been stored in the working directory and is left there. *)
Theorem invalid_request_leaves_file req fs lang code :
  req_method req = "POST" → req_url req = "/execute" →
  JSON_parse (String.concat "" (req_chunks req))
    = Some (Params (Some lang) (Some code)) →
  code ≠ "" →
  existsb (String.eqb lang) Object_prototype_keys = true →
  (writeFileSync false (src lang) code (start fs)).1 = Normal () →
  (handle req fs).1 = [invalid_request] ∧
  files (handle req fs).2 !! src lang = Some (File code).
Proof.
  intros Hm Hu Hp Hc Hkey Hw. unfold handler. rewrite Hm, Hu.
  change (String.eqb "POST" "OPTIONS") with false.
  change (String.eqb "POST" "POST" && String.eqb "/execute" "/execute")
    with true. cbv iota.
  unfold on_end. rewrite Hp. cbn [param_language param_code from_option id].
  assert (falsy (Some lang) = false) as ->.
  { destruct lang; [by vm_compute in Hkey | done]. }
  assert (falsy (Some code) = false) as -> by (by destruct code).
  cbn [orb]. apply inherited_key_truthy with (win32 := false) in Hkey.
  rewrite (run_builtin _ _ _ _ _ _ _ _ lang Hkey Hw). cbn.
  split; [done|]. apply lookup_insert_eq.
Qed.

(** X15.  Every header of every answer has a string as its value; the
    content type sent with a file is one of the five of [mimeTypes] or
    [text/plain], never a member inherited from [Object.prototype]. *)
Theorem header_values_are_text req fs rep k v :
  rep ∈ (handle req fs).1 → (k, v) ∈ headers rep →
  ∃ t, v = HText t ∧
       (k = "Content-Type" →
        t = "text/plain" ∨ t = "application/json" ∨ t ∈ mimeTypes.*2).
Proof.
  assert (Hcors : ∀ k v, (k, v) ∈ cors →
            ∃ t, v = HText t ∧ (k = "Content-Type" → t = "text/plain" ∨
                   t = "application/json" ∨ t ∈ mimeTypes.*2)).
  { intros k' v' H. unfold cors in H.
    apply elem_of_cons in H as [[= -> ->] | H]; [by eexists|].
    apply elem_of_cons in H as [[= -> ->] | H]; [by eexists|].
    by apply elem_of_nil in H. }
  assert (Hjson : ∀ c r k v, (k, v) ∈ headers (json_reply c r) →
            ∃ t, v = HText t ∧ (k = "Content-Type" → t = "text/plain" ∨
                   t = "application/json" ∨ t ∈ mimeTypes.*2)).
  { intros c r k' v' H. unfold json_reply in H. cbn [headers] in H.
    apply elem_of_app in H as [H | H]; [auto|].
    apply list_elem_of_singleton in H as [= -> ->]. eexists. split; [done|].
    intros _. right. by left. }
  unfold handler. destruct (String.eqb (req_method req) "OPTIONS").
  { intros H%list_elem_of_singleton Hh. subst. by apply Hcors. }
  destruct (_ && _).
  - destruct (on_end_cases (String.concat "" (req_chunks req)) fs)
      as [-> | (lang & code & _ & _ & _ & [(r & k' & -> & _) | (-> & _)])];
      intros H%list_elem_of_singleton Hh; subst; by eapply Hjson.
  - intros H%list_elem_of_singleton Hh. subst. revert Hh. unfold serve_static.
    destruct (negb _); [apply Hcors|].
    destruct (fs !! _) as [[c|]|]; cbn [headers]; [|apply Hcors|apply Hcors].
    intros H. apply elem_of_app in H as [H | H]; [auto|].
    apply list_elem_of_singleton in H as [= -> ->].
    destruct (content_type_text
                (if String.eqb (req_url req) "/" then "index.html"
                 else substring1 (req_url req))) as (t & -> & Ht).
    exists t. split; [done|]. intros _. destruct Ht; auto.
Qed.

End Serving.

Section Static.

Variable randomBytes : nat → list byte.
Variable now : string.
Variable child : string → gmap string node → child_result.
Variable JSON_parse : string → option params.

(** X16.  Below the directory of server.js every regular file whose
    relative path is written in letters, digits and [-], [.], [_], [~]
    is served: a GET for that path (so also for a source [s_<runId>.py]
    in the working directory [temp] while it exists, or for server.js
    itself) makes one [fs.readFile] of the joined path and is answered
    with the content of the file.  The parts are not empty and are not
    [.] or [..]; the server decodes no escapes, so names with other
    characters are outside this statement. *)
Theorem static_serves_tree dparts rparts chunks fs content :
  dparts ≠ [] → Forall (λ p, ordinary p = true) dparts →
  rparts ≠ [] → Forall (λ p, ordinary p = true) rparts →
  Forall (λ p, url_part p = true) rparts →
  fs !! (abs_path dparts +:+ "/" +:+ join_slash rparts) = Some (File content) →
  handler (abs_path dparts) randomBytes now child JSON_parse
    (Request "GET" ("/" +:+ join_slash rparts) chunks) fs
  = ([Reply 200
        (cors ++ [("Content-Type",
                   content_type (posix_extname (join_slash rparts)))])
        (Bytes content)],
     World fs [EvReadFile (abs_path dparts +:+ "/" +:+ join_slash rparts)]).
Proof.
  intros Hd Hdo Hr Hro _ Hfile.
  pose proof (join_slash_nonempty _ Hr Hro) as Hne.
  unfold handler. cbn [req_method req_url].
  change (String.eqb "GET" "OPTIONS") with false.
  change (String.eqb "GET" "POST") with false. cbn [andb]. cbv iota.
  unfold serve_static.
  change ("/" +:+ join_slash rparts) with (String "/" (join_slash rparts)).
  assert (String.eqb (String "/" (join_slash rparts)) "/" = false) as ->.
  { destruct (String.eqb_spec (String "/" (join_slash rparts)) "/") as [H|];
      [|done]. by injection H as H. }
  cbn [substring1].
  assert (posix_join (abs_path dparts) (join_slash rparts)
          = abs_path dparts +:+ "/" +:+ join_slash rparts) as ->.
  { rewrite (posix_join_abs dparts rparts (dparts ++ rparts)); try done.
    - unfold abs_path. rewrite join_slash_app by done.
      by rewrite !append_assoc.
    - apply Forall_ordinary_slash_free, Forall_app. by split.
    - by apply join_slash_no_trailing.
    - rewrite fold_norm_ordinary by (apply Forall_app; by split).
      by rewrite app_nil_r.
    - apply join_slash_nonempty; [by destruct dparts|].
      apply Forall_app. by split. }
  rewrite prefix_append, Hfile. reflexivity.
Qed.

(** X17.  The guard against directory traversal compares strings, not
    path parts: a GET that climbs out of the directory of server.js into
    a sibling directory whose name begins with the name of that directory
    passes the guard, and the file there is served. *)
Theorem guard_admits_sibling parent base suffix name chunks fs content :
  Forall (λ p, ordinary p = true) parent →
  ordinary base = true → ordinary (base +:+ suffix) = true →
  suffix ≠ "" → ordinary name = true →
  fs !! (abs_path (parent ++ [base]) +:+ suffix +:+ "/" +:+ name)
    = Some (File content) →
  handler (abs_path (parent ++ [base])) randomBytes now child JSON_parse
    (Request "GET" ("/../" +:+ base +:+ suffix +:+ "/" +:+ name) chunks) fs
  = ([Reply 200
        (cors ++ [("Content-Type",
                   content_type
                     (posix_extname
                        ("../" +:+ base +:+ suffix +:+ "/" +:+ name)))])
        (Bytes content)],
     World fs
       [EvReadFile
          (abs_path (parent ++ [base]) +:+ suffix +:+ "/" +:+ name)]) ∧
  String.prefix (abs_path (parent ++ [base]) +:+ "/")
    (abs_path (parent ++ [base]) +:+ suffix +:+ "/" +:+ name) = false.
Proof.
  intros Hp Hb Hbs Hs Hn Hfile.
  assert (Hsf : slash_free suffix = true).
  { apply ordinary_slash_free in Hbs. rewrite slash_free_append in Hbs.
    by apply andb_prop in Hbs as [_ ?]. }
  split.
  2:{ destruct suffix as [|c t]; [done|]. rewrite append_cons.
      apply prefix_slash_false. simpl in Hsf.
      destruct (Ascii.eqb_spec c "/"); [done | done]. }
  unfold handler. cbn [req_method req_url].
  change (String.eqb "GET" "OPTIONS") with false.
  change (String.eqb "GET" "POST") with false. cbn [andb]. cbv iota.
  unfold serve_static.
  change ("/../" +:+ base +:+ suffix +:+ "/" +:+ name)
    with (String "/" ("../" +:+ base +:+ suffix +:+ "/" +:+ name)).
  assert (String.eqb
            (String "/" ("../" +:+ base +:+ suffix +:+ "/" +:+ name)) "/"
          = false) as -> by reflexivity.
  cbn [substring1].
  assert (Hfile_parts :
            "../" +:+ base +:+ suffix +:+ "/" +:+ name
            = join_slash [".."; base +:+ suffix; name]).
  { cbn [join_slash]. change ("../" +:+ ?x) with (".." +:+ "/" +:+ x).
    by rewrite !append_assoc. }
  assert (posix_join (abs_path (parent ++ [base]))
            ("../" +:+ base +:+ suffix +:+ "/" +:+ name)
          = abs_path (parent ++ [base]) +:+ suffix +:+ "/" +:+ name) as ->.
  { rewrite Hfile_parts.
    rewrite (posix_join_abs (parent ++ [base]) [".."; base +:+ suffix; name]
               (parent ++ [base +:+ suffix; name])).
    - unfold abs_path. rewrite join_slash_last. by rewrite !append_assoc.
    - by destruct parent.
    - done.
    - apply Forall_app. split.
      + apply Forall_ordinary_slash_free, Forall_app. split; [done|].
        by apply Forall_singleton.
      + apply Forall_cons. split; [reflexivity|].
        apply Forall_cons. split; [by apply ordinary_slash_free|].
        apply Forall_singleton. by apply ordinary_slash_free.
    - rewrite <- Hfile_parts. done.
    - rewrite <- Hfile_parts.
      rewrite (ends_with_slash_append "../"), (ends_with_slash_append base),
        (ends_with_slash_append suffix), (ends_with_slash_append "/")
        by (repeat apply append_nonempty_r; by apply ordinary_nonempty).
      by apply slash_free_no_trailing, ordinary_slash_free.
    - rewrite fold_left_app.
      rewrite (fold_norm_ordinary false (parent ++ [base]) [])
        by (apply Forall_app; split; [done | by apply Forall_singleton]).
      rewrite app_nil_r, rev_app_distr. cbn [rev app fold_left].
      unfold norm_step at 3. cbn [String.eqb Ascii.eqb Bool.eqb orb].
      assert (String.eqb base ".." = false) as ->.
      { unfold ordinary in Hb.
        apply andb_prop in Hb as [Hb _]. apply andb_prop in Hb as [_ Hb].
        by destruct (String.eqb base ".."). }
      rewrite !ordinary_step by done.
      rewrite rev_app_distr. reflexivity.
    - apply join_slash_nonempty; [by destruct parent|].
      apply Forall_app. split; [done|].
      apply Forall_cons. split; [done|]. by apply Forall_singleton. }
  assert (String.prefix (abs_path (parent ++ [base]))
            (abs_path (parent ++ [base]) +:+ suffix +:+ "/" +:+ name) = true)
    as -> by apply prefix_append.
  cbn [negb]. rewrite Hfile. reflexivity.
Qed.

End Static.


Lemma invalid_request_leaves_file_witness :
  (sample_handler loops_forever (Request "POST" "/execute" ["constructor|x"])
     sample_fs).1 = [invalid_request] ∧
  files (sample_handler loops_forever
           (Request "POST" "/execute" ["constructor|x"]) sample_fs).2
    !! "/app/temp/s_01abff00107f800aundefined" = Some (File "x").
Proof.
  refine (invalid_request_leaves_file "/app" sample_bytes
            "2024-05-01T10:00:00.000Z" loops_forever sample_parse
            (Request "POST" "/execute" ["constructor|x"]) sample_fs
            "constructor" "x" eq_refl eq_refl _ _ _ _);
    vm_compute; (reflexivity || discriminate).
Defined.

Lemma header_values_are_text_witness :
  ∃ t, HText "text/html" = HText t ∧
       ("Content-Type" = "Content-Type" →
        t = "text/plain" ∨ t = "application/json" ∨ t ∈ mimeTypes.*2).
Proof.
  refine (header_values_are_text "/app" sample_bytes
            "2024-05-01T10:00:00.000Z" loops_forever sample_parse
            (Request "GET" "/" [])
            (<["/app/index.html" := File "<html></html>"]> sample_fs)
            (Reply 200 (cors ++ [("Content-Type", HText "text/html")])
               (Bytes "<html></html>"))
            "Content-Type" (HText "text/html") _ _).
  - vm_compute. left.
  - vm_compute. do 2 right. left.
Defined.

(** The source file of a run in flight can be fetched by anyone. *)
Lemma static_serves_tree_witness :
  (sample_handler loops_forever
     (Request "GET" "/temp/s_01abff00107f800a.py" [])
     (<["/app/temp/s_01abff00107f800a.py" := File "print(1)"]> sample_fs)).1
  = [Reply 200 (cors ++ [("Content-Type", HText "text/plain")])
       (Bytes "print(1)")].
Proof.
  refine (f_equal fst
            (static_serves_tree sample_bytes "2024-05-01T10:00:00.000Z"
               loops_forever sample_parse ["app"]
               ["temp"; "s_01abff00107f800a.py"] []
               (<["/app/temp/s_01abff00107f800a.py" := File "print(1)"]>
                  sample_fs) "print(1)" _ _ _ _ _ _)); try done.
  all: repeat constructor.
Defined.

(** With server.js in [/app], a file in [/app-private] is served. *)
Lemma guard_admits_sibling_witness :
  (sample_handler loops_forever
     (Request "GET" "/../app-private/keys.txt" [])
     (<["/app-private/keys.txt" := File "secret"]> sample_fs)).1
  = [Reply 200 (cors ++ [("Content-Type", HText "text/plain")])
       (Bytes "secret")] ∧
  String.prefix "/app/" "/app-private/keys.txt" = false.
Proof.
  destruct (guard_admits_sibling sample_bytes "2024-05-01T10:00:00.000Z"
              loops_forever sample_parse [] "app" "-private" "keys.txt" []
              (<["/app-private/keys.txt" := File "secret"]> sample_fs)
              "secret") as [H1 H2];
    [done | done | done | done | done | done |].
  split; [exact (f_equal fst H1) | exact H2].
Defined.

(** ** The page script *)

Lemma replace_all_append c r s t :
  replace_all c r (s +:+ t) = replace_all c r s +:+ replace_all c r t.
Proof.
  induction s as [|a s IH]; [done|].
  rewrite append_cons. cbn [replace_all]. rewrite IH.
  destruct (Ascii.eqb a c); [by rewrite append_assoc | by rewrite append_cons].
Qed.

Lemma escape_one a :
  replace_all squote_char "&#039;"
    (replace_all dquote_char "&quot;"
       (replace_all ">" "&gt;"
          (replace_all "<" "&lt;"
             (replace_all "&" "&amp;" (String a "")))))
  = escape_char a.
Proof.
  unfold escape_char.
  destruct (Ascii.eqb_spec a "&") as [-> | H1]; [reflexivity|].
  destruct (Ascii.eqb_spec a "<") as [-> | H2]; [reflexivity|].
  destruct (Ascii.eqb_spec a ">") as [-> | H3]; [reflexivity|].
  destruct (Ascii.eqb_spec a dquote_char) as [-> | H4]; [reflexivity|].
  destruct (Ascii.eqb_spec a squote_char) as [-> | H5]; [reflexivity|].
  cbn [replace_all].
  repeat match goal with
         | |- context [ Ascii.eqb a ?c ] =>
             destruct (Ascii.eqb_spec a c); [done|]; cbn [replace_all]
         end.
  reflexivity.
Qed.

(** The five replacements come to one pass over the characters. *)
Lemma escapeHtml_each s : escapeHtml (Some s) = escape_each s.
Proof.
  destruct s as [|a0 s0]; [done|]. unfold escapeHtml.
  generalize (String a0 s0). clear a0 s0. intros s.
  induction s as [|a s IH]; [done|].
  change (String a s) with (String a "" +:+ s).
  rewrite !replace_all_append, IH, escape_one. reflexivity.
Qed.

Lemma escape_each_append s t :
  escape_each (s +:+ t) = escape_each s +:+ escape_each t.
Proof.
  induction s as [|a s IH]; [done|].
  rewrite append_cons. cbn [escape_each]. by rewrite IH, append_assoc.
Qed.

(** X18.  The five replacements of [escapeHtml], made one after the
    other over the whole text, act on every character on its own: the
    result for a text in two parts is the result for the first part
    followed by the result for the second, and a single character gives
    its entity if it is [&], [<], [>], the double or the single quote, and
    itself otherwise.  In particular the ampersands that the later
    replacements write are not escaped again. *)
Theorem escapeHtml_append s t a :
  escapeHtml (Some (s +:+ t)) = escapeHtml (Some s) +:+ escapeHtml (Some t) ∧
  escapeHtml (Some (String a "")) = escape_char a.
Proof.
  rewrite !escapeHtml_each. split; [apply escape_each_append|].
  cbn [escape_each]. apply append_nil_r.
Qed.

Lemma occurs_append c s t : occurs c (s +:+ t) = occurs c s || occurs c t.
Proof.
  induction s as [|a s IH]; [done|].
  rewrite append_cons. cbn [occurs]. by rewrite IH, orb_assoc.
Qed.

(** X19.  Whatever the text, the result of [escapeHtml] contains none of
    the characters [<], [>], double quote and single quote. *)
Theorem escapeHtml_no_markup text c :
  c = "<"%char ∨ c = ">"%char ∨ c = dquote_char ∨ c = squote_char →
  occurs c (escapeHtml text) = false.
Proof.
  intros Hc. destruct text as [s|]; [|done]. rewrite escapeHtml_each.
  induction s as [|a s IH]; [done|].
  cbn [escape_each]. rewrite occurs_append, IH, orb_false_r.
  unfold escape_char.
  destruct (Ascii.eqb_spec a "&"); [by destruct Hc as [->|[->|[->| ->]]]|].
  destruct (Ascii.eqb_spec a "<"); [by destruct Hc as [->|[->|[->| ->]]]|].
  destruct (Ascii.eqb_spec a ">"); [by destruct Hc as [->|[->|[->| ->]]]|].
  destruct (Ascii.eqb_spec a dquote_char);
    [by destruct Hc as [->|[->|[->| ->]]]|].
  destruct (Ascii.eqb_spec a squote_char);
    [by destruct Hc as [->|[->|[->| ->]]]|].
  cbn [occurs]. rewrite orb_false_r.
  destruct (Ascii.eqb_spec a c) as [-> | ]; [|done].
  by destruct Hc as [->|[->|[->| ->]]].
Qed.

Lemma escapeHtml_no_markup_witness :
  occurs "<" (escapeHtml (Some "<script>alert('x')</script> & more")) = false.
Proof. apply escapeHtml_no_markup. by left. Defined.

Lemma append_nil_l s : "" +:+ s = s.
Proof. reflexivity. Qed.

Lemma escape_each_inj s t : escape_each s = escape_each t → s = t.
Proof.
  revert t. induction s as [|a s IH]; intros [|b t] H; cbn [escape_each] in H.
  - reflexivity.
  - exfalso. revert H. unfold escape_char.
    repeat (destruct (Ascii.eqb b _); [rewrite !append_cons; discriminate|]).
    rewrite append_cons. discriminate.
  - exfalso. revert H. unfold escape_char.
    repeat (destruct (Ascii.eqb a _); [rewrite !append_cons; discriminate|]).
    rewrite append_cons. discriminate.
  - revert H. unfold escape_char.
    destruct (Ascii.eqb_spec a "&"); destruct (Ascii.eqb_spec b "&");
    try destruct (Ascii.eqb_spec a "<"); try destruct (Ascii.eqb_spec b "<");
    try destruct (Ascii.eqb_spec a ">"); try destruct (Ascii.eqb_spec b ">");
    try destruct (Ascii.eqb_spec a dquote_char);
    try destruct (Ascii.eqb_spec b dquote_char);
    try destruct (Ascii.eqb_spec a squote_char);
    try destruct (Ascii.eqb_spec b squote_char);
    rewrite ?append_cons, ?append_nil_l; intros H;
    simplify_eq; try done; f_equal; auto.
Qed.

(** X20.  [escapeHtml] loses nothing: two texts with the same result are
    the same text. *)
Theorem escapeHtml_inj s t :
  escapeHtml (Some s) = escapeHtml (Some t) → s = t.
Proof. rewrite !escapeHtml_each. apply escape_each_inj. Qed.

Lemma escapeHtml_inj_witness :
  escapeHtml (Some "a<b") = "a&lt;b" ∧ "a<b" = "a<b".
Proof.
  split; [reflexivity|]. by apply escapeHtml_inj.
Defined.

(** ** Start of the server *)

Section Startup.

Variable win32 : bool.
Variable dirname_ : string.
Variable randomBytes : nat → list byte.
Variable now : string.
Variable child : string → gmap string node → child_result.

Local Abbreviation run := (executeCode win32 dirname_ randomBytes now child).
Local Abbreviation TEMP := (TEMP_DIR win32 dirname_).
Local Abbreviation rid := (runId randomBytes).
Local Abbreviation src := (sourcePath win32 dirname_ randomBytes).

(** X21.  Once the server has started on a file system where the
    working directory was missing or was a directory, a request in a
    language with a recipe gets its process started with the recipe's
    command, unless a directory sits at its source path. *)
Theorem startup_enables_runs fs fs' lang r code :
  startup win32 dirname_ fs = Some fs' →
  (∀ d, fs !! TEMP ≠ Some (File d)) →
  LANGUAGES_get win32 lang = VRecipe r →
  fs' !! src lang ≠ Some Directory →
  commands (trace (run lang code (start fs')).2)
    = [cmd r (src lang) TEMP ("bin_" +:+ rid)].
Proof.
  intros Hs Hnf E Hsrc.
  assert (Htemp : fs' !! TEMP = Some Directory).
  { revert Hs. unfold startup. destruct (fs !! TEMP) as [[d|]|] eqn:Et.
    - by destruct (Hnf d).
    - by intros [= <-].
    - destruct (fs !! path_dirname win32 TEMP) as [[d|]|]; try done.
      intros [= <-]. apply lookup_insert_eq. }
  assert (Hw : (writeFileSync win32 (src lang) code (start fs')).1 = Normal ()).
  { unfold writeFileSync, start. run_M.
    rewrite dirname_sourcePath, Htemp.
    by destruct (fs' !! src lang) as [[d|]|]. }
  rewrite (run_recipe _ _ _ _ _ _ _ _ r E Hw). cbn [snd trace].
  rewrite !commands_app, sweep_trace_commands. reflexivity.
Qed.

(** X22.  If a regular file sits where the working directory should be,
    the server starts all the same and leaves it there; from then on every
    request whose language passes the first test is answered with the
    write failure, and nothing is written or started. *)
Theorem startup_keeps_a_file fs d lang code :
  fs !! TEMP = Some (File d) →
  truthy (LANGUAGES_get win32 lang) = true →
  startup win32 dirname_ fs = Some fs ∧
  delivered (trace (run lang code (start fs)).2) = [write_failed_response] ∧
  commands (trace (run lang code (start fs)).2) = [] ∧
  files (run lang code (start fs)).2 = fs.
Proof.
  intros Ht Hl. split; [unfold startup; by rewrite Ht|].
  assert (Hw : (writeFileSync win32 (src lang) code (start fs)).1
               = Throw (FsError ENOTDIR (src lang))).
  { unfold writeFileSync, start. run_M. by rewrite dirname_sourcePath, Ht. }
  by rewrite (run_write_failed _ _ _ _ _ _ _ _ _ Hl Hw).
Qed.

End Startup.

Lemma startup_enables_runs_witness :
  startup false "/app" {[ "/app" := Directory ]}
    = Some (<["/app/temp" := Directory]> {[ "/app" := Directory ]}) ∧
  commands (trace (sample_run loops_forever "python" "print(1)"
                     (<["/app/temp" := Directory]> {[ "/app" := Directory ]})).2)
  = ["python3 " +:+ quoted "/app/temp/s_01abff00107f800a.py"].
Proof.
  split; [vm_compute; reflexivity|].
  refine (startup_enables_runs false "/app" sample_bytes
            "2024-05-01T10:00:00.000Z" loops_forever
            {[ "/app" := Directory ]}
            (<["/app/temp" := Directory]> {[ "/app" := Directory ]})
            "python" (python false) "print(1)" _ _ _ _).
  - vm_compute. reflexivity.
  - intros d. vm_compute. discriminate.
  - reflexivity.
  - vm_compute. discriminate.
Defined.

Lemma startup_keeps_a_file_witness :
  startup false "/app" (<["/app/temp" := File "notes"]> sample_fs)
    = Some (<["/app/temp" := File "notes"]> sample_fs) ∧
  delivered (trace (sample_run loops_forever "python" "print(1)"
                      (<["/app/temp" := File "notes"]> sample_fs)).2)
    = [write_failed_response].
Proof.
  destruct (startup_keeps_a_file false "/app" sample_bytes
              "2024-05-01T10:00:00.000Z" loops_forever
              (<["/app/temp" := File "notes"]> sample_fs) "notes" "python"
              "print(1)") as (H1 & H2 & _);
    [vm_compute; reflexivity | reflexivity |].
  exact (conj H1 H2).
Defined.
